(** * BTC price predictor against macro conditions: the Streamlit page

    A shallow embedding of [main] from
    [btc-price-predictor-vs-marco-conditions.py].  The page is a straight
    line of calls into Streamlit ([st.*]), pandas and the project's own
    [utils] module, with four early [return]s and one [try]/[except].

    - Every call the page makes is recorded, in order, in a trace of
      [event]s: what the user sees is the list of [Display] events.
    - What the collaborators answer (the loaded dataset, the widgets'
      values, the trained model, exceptions they raise) is not decided by
      the page: it is read from an environment [Env].
    - The floats the page computes on (the cells of a dataframe, the
      bounds, default and step of a slider) are IEEE 754 doubles, with
      their rounding, infinities and NaN.  The numbers the page only hands
      on or formats (the answers of the sliders, the model, the scores
      and the prediction) are rationals: the page does no arithmetic on
      them, and every finite double is one. *)

From Corelib Require Import PrimFloat.
From Stdlib Require Import QArith Ascii String.
From stdpp Require Import base list strings sorting pretty.

Local Open Scope string_scope.
Local Open Scope list_scope.

(** ** Numbers *)

(** A float the page only formats: a finite value, an infinity or NaN. *)
Inductive pyfloat : Type :=
| Fin (q : Q)
| NaN
| PosInf
| NegInf.

(** ** Exceptions and results *)

(** A raised object.  [except Exception] matches exactly the objects whose
    class derives from [Exception]; [KeyboardInterrupt], [SystemExit] and
    Streamlit's script-control exceptions derive from [BaseException]
    only. *)
Record exn : Type := mkExn {
  exn_class : string;
  exn_is_Exception : bool;
  exn_str : string
}.

Inductive result (A : Type) : Type :=
| Ok (a : A)
| Raise (e : exn).
Arguments Ok {A} a.
Arguments Raise {A} e.

Definition dquote : string := String "034"%char EmptyString.

(** The two hexadecimal digits of a byte. *)
Definition hex_digit (n : nat) : ascii :=
  nth n (list_ascii_of_string "0123456789abcdef") "0"%char.

Definition hex_byte (n : nat) : string :=
  String (hex_digit (n / 16)) (String (hex_digit (n mod 16)) EmptyString).

(** The body of [repr(s)] between its quotes: the quote and the backslash
    are escaped, tab, newline and carriage return are written as escapes,
    the other control characters as [\xNN]; every other character is
    kept (the bytes above 127 belong to characters that are kept when
    printable). *)
Fixpoint repr_body (quote : ascii) (s : string) : string :=
  match s with
  | EmptyString => EmptyString
  | String c rest =>
      let n := nat_of_ascii c in
      (if bool_decide (c = quote ∨ c = "\"%char)
       then String "\" (String c EmptyString)
       else if bool_decide (n = 9) then "\t"
       else if bool_decide (n = 10) then "\n"
       else if bool_decide (n = 13) then "\r"
       else if bool_decide (n < 32 ∨ n = 127) then "\x" +:+ hex_byte n
       else String c EmptyString)
      +:+ repr_body quote rest
  end.

Fixpoint contains (c : ascii) (s : string) : bool :=
  match s with
  | EmptyString => false
  | String c' rest => bool_decide (c' = c) || contains c rest
  end.

(** [repr(s)] of a string: in single quotes, unless it holds a single
    quote and no double quote. *)
Definition repr (s : string) : string :=
  let quote := if contains "'"%char s && negb (contains "034"%char s)
               then "034"%char else "'"%char in
  String quote (repr_body quote s +:+ String quote EmptyString).

(** [str(KeyError(key))] is [repr(key)]. *)
Definition KeyError (key : string) : exn := mkExn "KeyError" true (repr key).
Definition TypeError (msg : string) : exn := mkExn "TypeError" true msg.

(** ** pandas: data frames and series *)

(** A column label: a string, or another hashable, of which the name of
    its type is kept ([int] for the labels of a file read without a
    header). *)
Inductive label : Type :=
| StrLabel (s : string)
| OtherLabel (type_name : string).

#[global] Instance label_eq_dec : EqDecision label.
Proof. solve_decision. Defined.

(** A column-major table: the columns in order, each with its label.
    A cell is a double, NaN standing for a missing value. *)
Record DataFrame : Type := frame {
  df_data : list (label * list float)
}.

(** A frame whose labels are all strings, as read from a file with a
    header. *)
Definition mkDataFrame (data : list (string * list float)) : DataFrame :=
  frame (prod_map StrLabel id <$> data).

(** [df.columns.tolist()] *)
Definition labels (df : DataFrame) : list label := (df_data df).*1.

(** The labels that are strings: the ones a feature name can be equal
    to, so that [feat in df.columns] is [feat ∈ columns df]. *)
Definition columns (df : DataFrame) : list string :=
  omap (λ l, match l with StrLabel s => Some s | OtherLabel _ => None end)
       (labels df).

(** [df.empty]: some axis has length 0. *)
Definition empty (df : DataFrame) : bool :=
  match df_data df with
  | [] => true
  | (_, col) :: _ => bool_decide (col = [])
  end.

(** The columns that carry a label. *)
Definition labelled (df : DataFrame) (name : string) : list (list float) :=
  (filter (λ c, c.1 = StrLabel name) (df_data df)).*2.

(** [float(df[name].<stat>())] reads the one column labelled [name]:
    [df[name]] raises [KeyError] when no column carries the label; with
    a repeated label it is a frame, its statistic a series of several
    values, and [float] of that raises a [TypeError], whose wording
    [float_error] depends on the version of pandas. *)
Definition getitem (float_error : string) (df : DataFrame) (name : string)
  : result (list float) :=
  match labelled df name with
  | [] => Raise (KeyError name)
  | [col] => Ok col
  | _ => Raise (TypeError float_error)
  end.

(** The values a reduction sees: pandas skips missing values. *)
Definition dropna (col : list float) : list float :=
  filter (λ x, negb (PrimFloat.is_nan x)) col.

Definition fmin (a b : float) : float := if PrimFloat.leb a b then a else b.
Definition fmax (a b : float) : float := if PrimFloat.leb a b then b else a.

(** [Series.min()] *)
Definition series_min (col : list float) : float :=
  match dropna col with
  | [] => nan
  | x :: xs => foldl fmin x xs
  end.

(** [Series.max()] *)
Definition series_max (col : list float) : float :=
  match dropna col with
  | [] => nan
  | x :: xs => foldl fmax x xs
  end.

Definition fle (a b : float) : Prop := PrimFloat.leb a b.

#[global] Instance fle_dec : RelDecision fle := λ a b, Is_true_dec _.

(** [Series.median()]: the middle value of the sorted values, the mean of
    the two middle values when their number is even. *)
Definition series_median (col : list float) : float :=
  let sorted := merge_sort fle (dropna col) in
  let n := length sorted in
  if bool_decide (n = 0) then nan
  else if Nat.even n then
    match sorted !! (n / 2 - 1), sorted !! (n / 2) with
    | Some a, Some b => ((a + b) / 2)%float
    | _, _ => nan
    end
  else
    match sorted !! (n / 2) with
    | Some a => a
    | None => nan
    end.

(** [sep.join(parts)] on strings. *)
Fixpoint str_join (sep : string) (parts : list string) : string :=
  match parts with
  | [] => EmptyString
  | [s] => s
  | s :: rest => s +:+ sep +:+ str_join sep rest
  end.

(** The first item that is not a string, with its position. *)
Fixpoint first_other (i : nat) (parts : list label) : option (nat * string) :=
  match parts with
  | [] => None
  | StrLabel _ :: rest => first_other (S i) rest
  | OtherLabel type_name :: _ => Some (i, type_name)
  end.

(** [sep.join(parts)]: a [TypeError] at the first item that is not a
    string. *)
Definition join (sep : string) (parts : list label) : result string :=
  match first_other 0 parts with
  | Some (i, type_name) =>
      Raise (TypeError ("sequence item " +:+ pretty i +:+
                        ": expected str instance, " +:+ type_name +:+
                        " found"))
  | None =>
      Ok (str_join sep
            (omap (λ l, match l with
                        | StrLabel s => Some s
                        | OtherLabel _ => None
                        end) parts))
  end.

(** The fitted [LinearRegression]: [model.intercept_] and [model.coef_]. *)
Record Model : Type := mkModel {
  intercept_ : Q;
  coef_ : list Q
}.

Definition ValueError (msg : string) : exn := mkExn "ValueError" true msg.

(** [pd.DataFrame({'Feature': features, 'Coefficient': coefs})]: a row per
    feature; pandas refuses columns of different lengths. *)
Definition pd_DataFrame (features : list string) (coefs : list Q)
  : result (list (string * Q)) :=
  if bool_decide (length features = length coefs)
  then Ok (zip features coefs)
  else Raise (ValueError "All arrays must be of the same length").

(** ** What the page shows *)

(** The pieces of an f-string: literal text, a float under a format
    specification, [str(e)] of an exception, and the text of
    [traceback.format_exc()] for the exception being handled. *)
Inductive piece : Type :=
| Lit (s : string)
| Fmt (spec : string) (x : pyfloat)
| Str (e : exn)
| FormatExc (e : exn).

Definition message : Type := list piece.

(** [f"{v:spec}"]: [None] has no float format. *)
Definition format_float (spec : string) (v : option pyfloat) : result piece :=
  match v with
  | Some x => Ok (Fmt spec x)
  | None => Raise (TypeError "unsupported format string passed to NoneType.__format__")
  end.

(** The display calls of Streamlit the page uses. *)
Inductive ui : Type :=
| Title (body : message)
| Write (args : list message)
| Error (body : message)
| SidebarHeader (body : message)
| SidebarSubheader (body : message)
| Subheader (body : message)
| Success (body : message)
| Dataframe (data : list (string * Q))
| Container
| Markdown (body : message)
| Info (body : message).

(** One call made by the page, with its arguments. *)
Inductive event : Type :=
| Display (u : ui)
| CallLoadData
| CallCheckbox (label : string) (value : bool) (key : string)
| CallTrainModel (df : DataFrame) (features : list string)
| CallSlider (label : string) (min_value max_value value step : float)
             (key : string)
| CallButton (label : string)
| CallMakePrediction (model : Model) (feature_values : list Q).

(** ** The collaborators *)

(** What [train_model] returns: [(model, r_squared, rmse, clean_df)], any
    of which may be [None]. *)
Definition trained : Type :=
  option Model * option pyfloat * option pyfloat * option DataFrame.

(** The answers of everything the page calls and does not define: the
    functions imported from [utils] and Streamlit's input widgets, each of
    which either returns or raises; and the wording of the [TypeError]
    that the installed pandas gives when [float] is applied to a series
    of several values. *)
Record Env : Type := mkEnv {
  load_data : result (option DataFrame);
  checkbox : string → bool → string → result bool;
  train_model : DataFrame → list string → result trained;
  slider : string → float → float → float → float → string → result Q;
  button : string → result bool;
  make_prediction : Model → list Q → result (option Q);
  float_error : string
}.

(** ** The page monad: a trace of calls and a result or a raised exception *)

Definition page (A : Type) : Type := (list event * result A)%type.

#[global] Instance page_ret : MRet page := λ A a, ([], Ok a).

#[global] Instance page_bind : MBind page := λ A B f m,
  match m with
  | (t, Ok a) => let '(t', r) := f a in (t ++ t', r)
  | (t, Raise e) => (t, Raise e)
  end.

(** A call: recorded, then answered. *)
Definition call {A : Type} (ev : event) (answer : result A) : page A :=
  ([ev], answer).

(** A computation of pandas or of the interpreter: not recorded. *)
Definition lift {A : Type} (r : result A) : page A := ([], r).

(** A display call: recorded, returns [None]. *)
Definition show (u : ui) : page unit := ([Display u], Ok ()).

(** [try: body  except Exception as e: handler(e)] *)
Definition try_except {A : Type} (body : page A) (handler : exn → page A)
  : page A :=
  match body with
  | (t, Ok a) => (t, Ok a)
  | (t, Raise e) =>
      if exn_is_Exception e
      then let '(t', r) := handler e in (t ++ t', r)
      else (t, Raise e)
  end.

Definition trace {A : Type} (p : page A) : list event := p.1.
Definition outcome {A : Type} (p : page A) : result A := p.2.

(** ** The page *)

Definition macro_features : list string :=
  [ "gold_price_usd";
    "SP500";
    "fed_funds_rate";
    "US_inflation";
    "US_M2_money_supply_in_billions" ].

(** [[feat for feat in macro_features if feat in btc_macro_df.columns]] *)
Definition available_features (btc_macro_df : DataFrame) : list string :=
  filter (λ feat, feat ∈ columns btc_macro_df) macro_features.

(** The title and the three introductory paragraphs. *)
Definition intro : page unit :=
  show (Title [Lit "BTC Price Predictor Against Macro Conditions"]);;
  show (Write [[Lit "This model demonstrates how Bitcoin's price dynamics have evolved beyond the traditional 4-year cycle narrative in 2025. 
    It highlights the increasing influence of macroeconomic factors on BTC's valuation."]]);;
  show (Write [[Lit "Use the sliders to explore various economic scenarios—from highly favorable to challenging conditions—and observe their significant impact on Bitcoin's predicted price movement."]]);;
  show (Write [[Lit "Contains data from Mar-2015 to Mar-2025."]]).

Section Page.

Variable env : Env.

(** The loop over the checkboxes: a checked feature is appended to
    [selected_features]. *)
Fixpoint checkbox_loop (features selected_features : list string)
  : page (list string) :=
  match features with
  | [] => mret selected_features
  | feature :: rest =>
      checked ← call (CallCheckbox feature true ("feature_" +:+ feature))
                     (checkbox env feature true ("feature_" +:+ feature));
      checkbox_loop rest
        (if checked : bool then selected_features ++ [feature]
         else selected_features)
  end.

(** The page up to the [try]: the dataset and the selected features, or
    [None] where [main] returns early. *)
Definition select_features : page (option (DataFrame * list string)) :=
  intro;;
  loaded ← call CallLoadData (load_data env);
  match loaded with
  | None =>
      show (Error [Lit "Failed to load data. Please check your data source."]);;
      mret None
  | Some btc_macro_df =>
      if empty btc_macro_df then
        show (Error [Lit "Failed to load data. Please check your data source."]);;
        mret None
      else
        match available_features btc_macro_df with
        | [] =>
            show (Error [Lit "None of the required macro features are in the dataset."]);;
            joined ← lift (join ", " (labels btc_macro_df));
            show (Write [[Lit "Available columns:"]; [Lit joined]]);;
            mret None
        | _ =>
            show (SidebarHeader [Lit "Model Configuration"]);;
            show (SidebarSubheader [Lit "Select Features to Include"]);;
            selected_features ←
              checkbox_loop (available_features btc_macro_df) [];
            match selected_features with
            | [] =>
                show (Error [Lit "Please select at least one feature for prediction."]);;
                mret None
            | _ => mret (Some (btc_macro_df, selected_features))
            end
        end
  end.

(** The loop over the sliders: each value is appended to
    [feature_values]. *)
Fixpoint slider_loop (clean_df : DataFrame) (features : list string)
    (feature_values : list Q) : page (list Q) :=
  match features with
  | [] => mret feature_values
  | feature :: rest =>
      min_val ← lift (match getitem (float_error env) clean_df feature with
                      | Ok col => Ok (series_min col) | Raise e => Raise e end);
      max_val ← lift (match getitem (float_error env) clean_df feature with
                      | Ok col => Ok (series_max col) | Raise e => Raise e end);
      current_val ← lift (match getitem (float_error env) clean_df feature with
                          | Ok col => Ok (series_median col)
                          | Raise e => Raise e end);
      feature_val ←
        call (CallSlider feature min_val max_val current_val
                ((max_val - min_val) / 100)%float
                ("slider_" +:+ feature))
             (slider env feature min_val max_val current_val
                ((max_val - min_val) / 100)%float
                ("slider_" +:+ feature));
      slider_loop clean_df rest (feature_values ++ [feature_val])
  end.

(** The static interpretation of the five coefficients. *)
Definition narrative : page unit :=
  show Container;;
  show (Markdown [Lit "**1. Inflation (coefficient: 541.73):**"]);;
  show (Write [[Lit "For each percentage point increase in inflation, Bitcoin price is estimated to increase by $541.73, on average. This supports the narrative that Bitcoin serves as an inflation hedge - when fiat currencies lose purchasing power, Bitcoin tends to gain value."]]);;
  show (Markdown [Lit "**2. Fed funds rate (coefficient: -3,393.99):**"]);;
  show (Write [[Lit "This large negative coefficient indicates that for each percentage point increase in the Fed funds rate, Bitcoin price is estimated to decrease by approximately $3,394. This relationship makes economic sense as higher interest rates:"]]);;
  show (Markdown [Lit "
            - Make yield-generating assets more attractive compared to non-yielding Bitcoin
            - Reduce liquidity in the financial system
            - Typically suppress risk appetite in markets
            "]);;
  show (Markdown [Lit "**3. S&P 500 (coefficient: 27.39):**"]);;
  show (Write [[Lit "For each point increase in the S&P 500 index, Bitcoin price tends to increase by about $27.39. This positive correlation suggests Bitcoin still behaves partially as a risk asset that rises with broader market optimism."]]);;
  show (Markdown [Lit "**4. Gold price (coefficient: 4.99):**"]);;
  show (Write [[Lit ("For each dollar increase in gold's price, Bitcoin price tends to increase by $4.99. This modest positive relationship suggests some connection between the two assets, supporting the " +:+ dquote +:+ "digital gold" +:+ dquote +:+ " narrative, but the effect is relatively small.")]]);;
  show (Markdown [Lit "**5. M2 money supply (coefficient: -2.71):**"]);;
  show (Write [[Lit "For each billion dollar increase in M2 money supply, Bitcoin price tends to decrease by $2.71. This slight negative relationship is counterintuitive since Bitcoin is often positioned as a hedge against monetary expansion. There might be lag effects not captured in the current model."]]).

(** The model information: the two scores, the table of coefficients, the
    narrative and the disclaimer. *)
Definition model_information (model : Model) (r_squared rmse : option pyfloat)
    (selected_features : list string) : page unit :=
  show (Subheader [Lit "Model Information"]);;
  r2 ← lift (format_float ".4f" r_squared);
  show (Write [[Lit "Model R-squared: "; r2]]);;
  err ← lift (format_float ",.2f" rmse);
  show (Write [[Lit "RMSE (Root Mean Square Error): $"; err]]);;
  show (Write [[Lit "R² of 0.872 is quite strong, which means that the model accounts for approximately 87.2% of the fluctuations in Bitcoin prices."]]);;
  show (Write [[Lit "RMSE of 7,929.99 suggest that on average, the model's predictions differ from the actual Bitcoin price by about $7,929."]]);;
  coef_df ← lift (pd_DataFrame selected_features (coef_ model));
  show (Write [[Lit "Feature Coefficients:"]]);;
  show (Dataframe coef_df);;
  narrative;;
  show (Info [Lit "Disclaimer: This tool is for educational purposes only. Cryptocurrency investments carry significant risk."]).

(** The Predict button and what it shows. *)
Definition predict (model : Model) (feature_values : list Q) : page unit :=
  pressed ← call (CallButton "Predict BTC Price") (button env "Predict BTC Price");
  if pressed : bool then
    prediction ← call (CallMakePrediction model feature_values)
                      (make_prediction env model feature_values);
    match prediction with
    | Some p =>
        show (Success [Lit "Estimated BTC price: $"; Fmt ",.2f" (Fin p)])
    | None => mret ()
    end
  else mret ().

(** The body of the [try]. *)
Definition train_and_render (btc_macro_df : DataFrame)
    (selected_features : list string) : page unit :=
  '(model, r_squared, rmse, clean_df) ←
    call (CallTrainModel btc_macro_df selected_features)
         (train_model env btc_macro_df selected_features);
  match model, clean_df with
  | Some model, Some clean_df =>
      if empty clean_df then
        show (Error [Lit "Could not train model. Please check your data."])
      else
        show (Subheader [Lit "Make a Prediction"]);;
        feature_values ← slider_loop clean_df selected_features [];
        predict model feature_values;;
        model_information model r_squared rmse selected_features
  | _, _ =>
      show (Error [Lit "Could not train model. Please check your data."])
  end.

(** The [except Exception as e] clause. *)
Definition except_handler (e : exn) : page unit :=
  show (Error [Lit "An error occurred: "; Str e]);;
  show (Error [FormatExc e]).

Definition main : page unit :=
  selection ← select_features;
  match selection with
  | None => mret ()
  | Some (btc_macro_df, selected_features) =>
      try_except (train_and_render btc_macro_df selected_features)
                 except_handler
  end.

End Page.

(** ** The predictor of [utils] *)

Module Utils.

(** [dot(coefficients, v)] *)
Fixpoint dot (coefficients v : list Q) : Q :=
  match coefficients, v with
  | c :: cs, x :: xs => (c * x + dot cs xs)%Q
  | _, _ => 0%Q
  end.

(** Modelled from the spec: [utils.make_prediction], imported by the page
    and not part of the sources.  For a feature vector with one value per
    coefficient, in the training order, the prediction is the scalar
    intercept + sum(coefficient_i × value_i); the interface is
    [scalar | none], and [none] is the answer for a vector the model
    cannot be evaluated at. *)
Definition make_prediction (model : Model) (v : list Q) : option Q :=
  if bool_decide (length v = length (coef_ model))
  then Some (intercept_ model + dot (coef_ model) v)%Q
  else None.

(** The point [a·v + (1 - a)·w] on the line through [v] and [w]. *)
Definition along (a : Q) (v w : list Q) : list Q :=
  zip_with (λ x y, a * x + (1 - a) * y)%Q v w.

End Utils.

(** ** A sample session *)

Module Sample.

Definition btc_macro_df : DataFrame :=
  mkDataFrame
    [ ("btc_price", [250; 9000; 60000; 82000]);
      ("gold_price_usd", [1180; 1500; nan; 2900]);
      ("SP500", [2070; 3000; 4500; 5600]);
      ("fed_funds_rate", [0.125; 2.5; 1 / 10; 4.5]);
      ("unemployment", [5; 4; 6; 4]) ]%float.

(** Rows with a missing value dropped. *)
Definition clean_df : DataFrame :=
  mkDataFrame
    [ ("btc_price", [250; 9000; 82000]);
      ("gold_price_usd", [1180; 1500; 2900]);
      ("SP500", [2070; 3000; 5600]);
      ("fed_funds_rate", [0.125; 2.5; 4.5]);
      ("unemployment", [5; 4; 4]) ]%float.

Definition model (features : list string) : Model :=
  mkModel (-1000) (map (λ _, 5 # 2) features)%Q.

(** Streamlit refuses a slider whose step is 0. *)
Definition StepError : exn :=
  mkExn "StreamlitAPIException" true
        "Slider components cannot be passed a `step` of 0.".

(** A slider set to the value [answers] gives for its label. *)
Definition slider_at (answers : string → Q)
  : string → float → float → float → float → string → result Q :=
  λ label _ _ _ step _,
    if PrimFloat.eqb step 0 then Raise StepError else Ok (answers label).

(** The medians and the maxima of the columns of [clean_df]. *)
Definition medians (label : string) : Q :=
  if bool_decide (label = "gold_price_usd") then 1500
  else if bool_decide (label = "SP500") then 3000
  else 5 # 2.

Definition maxima (label : string) : Q :=
  if bool_decide (label = "gold_price_usd") then 2900
  else if bool_decide (label = "SP500") then 5600
  else 9 # 2.

(** A session where every collaborator answers: all checkboxes keep
    their default, the sliders their default value, and the button is
    pressed. *)
Definition env : Env := {|
  load_data := Ok (Some btc_macro_df);
  checkbox := λ _ value _, Ok value;
  train_model := λ _ features,
    Ok (Some (model features), Some (Fin (872 # 1000)), Some (Fin 7930),
        Some clean_df);
  slider := slider_at medians;
  button := λ _, Ok true;
  make_prediction := λ model v, Ok (Utils.make_prediction model v);
  float_error := "cannot convert the series to <class 'float'>"
|}.

(** The same session with another answer of the loader. *)
Definition with_load_data (loaded : result (option DataFrame)) : Env :=
  mkEnv loaded (checkbox env) (train_model env) (slider env) (button env)
        (make_prediction env) (float_error env).

Definition no_data : Env := with_load_data (Ok None).





(** The user unticks every checkbox. *)
Definition all_unticked : Env :=
  mkEnv (load_data env) (λ _ _ _, Ok false) (train_model env) (slider env)
        (button env) (make_prediction env) (float_error env).

(** The data file cannot be read. *)
Definition FileNotFoundError : exn :=
  mkExn "FileNotFoundError" true "No such file or directory".

Definition unreadable : Env := with_load_data (Raise FileNotFoundError).

(** The same session with another answer of the trainer. *)
Definition with_train_model
    (answer : DataFrame → list string → result trained) : Env :=
  mkEnv (load_data env) (checkbox env) answer (slider env) (button env)
        (make_prediction env) (float_error env).

(** Training returns no model. *)
Definition untrained : Env :=
  with_train_model (λ _ _, Ok (None, None, None, None)).

(** Training is interrupted from the keyboard. *)
Definition KeyboardInterrupt : exn :=
  mkExn "KeyboardInterrupt" false EmptyString.

Definition interrupted : Env := with_train_model (λ _ _, Raise KeyboardInterrupt).

(** Training fails on the data. *)
Definition LinAlgError : exn := mkExn "LinAlgError" true "SVD did not converge".

Definition failing : Env := with_train_model (λ _ _, Raise LinAlgError).

(** The predictor gives no answer. *)
Definition no_prediction : Env :=
  mkEnv (load_data env) (checkbox env) (train_model env) (slider env)
        (button env) (λ _ _, Ok None) (float_error env).

Definition selected : list string :=
  ["gold_price_usd"; "SP500"; "fed_funds_rate"].

(** The user keeps only the S&P 500 and the Fed funds rate. *)
Definition two_ticked : Env :=
  mkEnv (load_data env)
        (λ label _ _, Ok (bool_decide (label ≠ "gold_price_usd")))
        (train_model env) (slider env) (button env) (make_prediction env)
        (float_error env).

(** The user moves the sliders to their maxima. *)
Definition moved : Env :=
  mkEnv (load_data env) (checkbox env) (train_model env) (slider_at maxima)
        (button env) (make_prediction env) (float_error env).

(** The button is not pressed. *)
Definition idle : Env :=
  mkEnv (load_data env) (checkbox env) (train_model env) (slider env)
        (λ _, Ok false) (make_prediction env) (float_error env).

(** The trainer hands back a dataframe without the S&P 500 column. *)
Definition narrow_df : DataFrame :=
  mkDataFrame
    [ ("btc_price", [250; 9000; 82000]);
      ("gold_price_usd", [1180; 1500; 2900]);
      ("fed_funds_rate", [0.125; 2.5; 4.5]) ]%float.

Definition narrowed : Env :=
  with_train_model
    (λ _ features,
       Ok (Some (model features), Some (Fin (872 # 1000)), Some (Fin 7930),
           Some narrow_df)).



End Sample.

(** ** Reading a trace *)

(** The calls into [utils]: the data loader, the model trainer and the
    predictor. *)
Definition is_utils_call (ev : event) : bool :=
  match ev with
  | CallLoadData | CallTrainModel _ _ | CallMakePrediction _ _ => true
  | _ => false
  end.

(** The input widgets: checkboxes, sliders and the button. *)
Definition is_widget (ev : event) : bool :=
  match ev with
  | CallCheckbox _ _ _ | CallSlider _ _ _ _ _ _ | CallButton _ => true
  | _ => false
  end.

Definition is_slider (ev : event) : bool :=
  match ev with
  | CallSlider _ _ _ _ _ _ => true
  | _ => false
  end.

(** The bodies of the [st.error] boxes shown, in order. *)
Fixpoint errors (t : list event) : list message :=
  match t with
  | [] => []
  | Display (Error body) :: rest => body :: errors rest
  | _ :: rest => errors rest
  end.

(** The bodies of the [st.success] boxes shown, in order. *)
Fixpoint successes (t : list event) : list message :=
  match t with
  | [] => []
  | Display (Success body) :: rest => body :: successes rest
  | _ :: rest => successes rest
  end.

(** The checkbox the page offers for a feature, and the part of the page
    before the checkboxes when the dataset has usable features. *)
Definition checkbox_call (feature : string) : event :=
  CallCheckbox feature true ("feature_" +:+ feature).

Definition before_checkboxes : list event :=
  trace intro ++
  [ CallLoadData;
    Display (SidebarHeader [Lit "Model Configuration"]);
    Display (SidebarSubheader [Lit "Select Features to Include"]) ].

(** Whether the checkbox of a feature comes back ticked. *)
Definition ticked (env : Env) (feature : string) : bool :=
  match checkbox env feature true ("feature_" +:+ feature) with
  | Ok true => true
  | _ => false
  end.

(** The [key] a widget is registered under; the button has none. *)
Definition widget_key (ev : event) : option string :=
  match ev with
  | CallCheckbox _ _ key => Some key
  | CallSlider _ _ _ _ _ key => Some key
  | _ => None
  end.

(** What the slider answers to a call. *)
Definition slider_answer (env : Env) (ev : event) : option Q :=
  match ev with
  | CallSlider label min_value max_value value step key =>
      match slider env label min_value max_value value step key with
      | Ok q => Some q
      | Raise _ => None
      end
  | _ => None
  end.

(** The last thing the page renders. *)
Definition disclaimer : event :=
  Display (Info [Lit "Disclaimer: This tool is for educational purposes only. Cryptocurrency investments carry significant risk."]).

(** The rows of a coefficient table shown by [st.dataframe]. *)
Definition table_of (ev : event) : option (list (string * Q)) :=
  match ev with
  | Display (Dataframe data) => Some data
  | _ => None
  end.

Definition is_checkbox (ev : event) : bool :=
  match ev with
  | CallCheckbox _ _ _ => true
  | _ => false
  end.

(** The slider of a feature: labelled with it, it runs from the minimum
    to the maximum of the feature's column of the cleaned dataframe,
    starts at the column's median, steps by (max - min) / 100, and is
    registered under [slider_<name>]. *)
Definition slider_of (clean_df : DataFrame) (feature : string) (ev : event)
  : Prop :=
  ∃ col, labelled clean_df feature = [col] ∧
         ev = CallSlider feature (series_min col) (series_max col)
                (series_median col)
                ((series_max col - series_min col) / 100)%float
                ("slider_" +:+ feature).

(** How a run that has entered the [try] may end: with an error box, with
    the whole page down to the disclaimer, or with an exception that is
    not an [Exception]. *)
Definition ends_well (p : page unit) : Prop :=
  match outcome p with
  | Ok _ =>
      errors (trace p) ≠ [] ∨
      errors (trace p) = [] ∧ last (trace p) = Some disclaimer
  | Raise e => exn_is_Exception e = false
  end.

(** * Properties *)

(** ** The feature selector *)

Section Sublists.

Context {A : Type} `{EqDecision A}.

(** Two predicates that agree on a list keep the same elements of it. *)
Lemma filter_agree (P Q : A → Prop) `{!∀ x, Decision (P x)}
    `{!∀ x, Decision (Q x)} (k : list A) :
  (∀ x, x ∈ k → P x ↔ Q x) → filter P k = filter Q k.
Proof.
  induction k as [|y k IH]; intros HPQ; [done|].
  rewrite !filter_cons.
  assert (P y ↔ Q y) as Hy by (apply HPQ; left).
  assert (filter P k = filter Q k) as ->
    by (apply IH; intros x Hx; apply HPQ; by right).
  destruct (decide (P y)), (decide (Q y)); tauto.
Qed.

(** A sublist of a duplicate-free list is what membership in it keeps. *)
Lemma sublist_as_filter (l k : list A) :
  NoDup k → l `sublist_of` k → filter (λ x, x ∈ l) k = l.
Proof.
  intros Hk Hl. induction Hl as [|x l k Hl IH|x l k Hl IH].
  - done.
  - apply NoDup_cons in Hk as [Hx Hk].
    rewrite filter_cons_True by left. f_equal.
    transitivity (filter (λ y, y ∈ l) k); [|by apply IH].
    apply filter_agree.
    intros y Hy. rewrite elem_of_cons. split; [|tauto].
    intros [->|?]; done.
  - apply NoDup_cons in Hk as [Hx Hk].
    rewrite filter_cons_False; [by apply IH|].
    intros Hin. apply Hx. by eapply elem_of_sublist.
Qed.

End Sublists.

Lemma NoDup_macro_features : NoDup macro_features.
Proof. apply (bool_decide_unpack _). by vm_compute. Qed.

(** C2. For every dataset, the available features are exactly the ordered
    sublist of the five candidates that occur among the dataset's columns:
    a list is the selector's answer if and only if it is a sublist of
    [macro_features] (so in the declared order) holding exactly the
    candidates that are columns.  In particular a dataset with all five
    candidate columns yields the five candidates in the declared order. *)
Theorem available_features_exact (btc_macro_df : DataFrame) :
  (∀ l : list string,
      l = available_features btc_macro_df ↔
      l `sublist_of` macro_features ∧
      ∀ feat, feat ∈ l ↔ feat ∈ macro_features ∧ feat ∈ columns btc_macro_df) ∧
  ((∀ feat, feat ∈ macro_features → feat ∈ columns btc_macro_df) →
   available_features btc_macro_df =
     [ "gold_price_usd"; "SP500"; "fed_funds_rate"; "US_inflation";
       "US_M2_money_supply_in_billions" ]).
Proof.
  split.
  - intros l. split.
    + intros ->. split; [apply sublist_filter|].
      intros feat. unfold available_features.
      rewrite list_elem_of_filter. tauto.
    + intros [Hsub Hmem]. unfold available_features.
      rewrite <- (sublist_as_filter l macro_features NoDup_macro_features Hsub).
      apply filter_agree. intros feat Hfeat. rewrite Hmem. tauto.
  - intros Hall. unfold available_features.
    rewrite (filter_agree _ (λ _, True) macro_features) by (split; auto).
    done.
Qed.

(** A dataset with all five candidate columns, out of order and among
    others. *)
Lemma available_features_exact_witness :
  available_features
    (mkDataFrame [ ("US_inflation", [2]); ("Date", [0]);
                   ("SP500", [5600]); ("btc_price", [82000]);
                   ("US_M2_money_supply_in_billions", [21000]);
                   ("gold_price_usd", [2900]);
                   ("fed_funds_rate", [4]) ]%float) =
  [ "gold_price_usd"; "SP500"; "fed_funds_rate"; "US_inflation";
    "US_M2_money_supply_in_billions" ].
Proof.
  apply (available_features_exact _).
  intros feat Hfeat.
  repeat (apply elem_of_cons in Hfeat as [->|Hfeat];
          [apply (bool_decide_unpack _); by vm_compute|]).
  by apply elem_of_nil in Hfeat.
Defined.

(** ** The page monad *)

Section Monad.

Context {A B : Type}.

Lemma bind_ok (t : list event) (a : A) (f : A → page B) :
  ((t, Ok a) : page A) ≫= f = (t ++ trace (f a), outcome (f a)).
Proof. unfold mbind, page_bind. by destruct (f a). Qed.

Lemma bind_raise (t : list event) (e : exn) (f : A → page B) :
  ((t, Raise e) : page A) ≫= f = (t, Raise e).
Proof. done. Qed.

Lemma bind_call_ok (ev : event) (a : A) (f : A → page B) :
  call ev (Ok a) ≫= f = (ev :: trace (f a), outcome (f a)).
Proof. unfold call. by rewrite bind_ok. Qed.

Lemma bind_call_raise (ev : event) (e : exn) (f : A → page B) :
  call ev (Raise e : result A) ≫= f = ([ev], Raise e).
Proof. done. Qed.

Lemma bind_lift_ok (a : A) (f : A → page B) : lift (Ok a) ≫= f = f a.
Proof. unfold lift. rewrite bind_ok. by destruct (f a). Qed.

Lemma bind_lift_raise (e : exn) (f : A → page B) :
  lift (Raise e : result A) ≫= f = ([], Raise e).
Proof. done. Qed.

End Monad.

Lemma bind_show {B : Type} (u : ui) (f : unit → page B) :
  show u ≫= f = (Display u :: trace (f ()), outcome (f ())).
Proof. unfold show. by rewrite bind_ok. Qed.

Lemma page_eta {A : Type} (p : page A) : (trace p, outcome p) = p.
Proof. by destruct p. Qed.

Lemma trace_pair {A : Type} (t : list event) (r : result A) :
  trace (t, r) = t.
Proof. done. Qed.

Lemma outcome_pair {A : Type} (t : list event) (r : result A) :
  outcome (t, r) = r.
Proof. done. Qed.

Lemma bind_intro {B : Type} (f : unit → page B) :
  intro ≫= f = (trace intro ++ trace (f ()), outcome (f ())).
Proof. by rewrite <- bind_ok. Qed.

(** The configuration error and the list of the columns, which is not
    shown when joining the labels raises. *)
Lemma no_features_page {A : Type} (parts : list label) :
  (show (Error [Lit "None of the required macro features are in the dataset."]);;
   joined ← lift (join ", " parts);
   show (Write [[Lit "Available columns:"]; [Lit joined]]);;
   mret (None : option A)) =
  match join ", " parts with
  | Ok joined =>
      ([ Display (Error [Lit "None of the required macro features are in the dataset."]);
         Display (Write [[Lit "Available columns:"]; [Lit joined]]) ],
       Ok None)
  | Raise e =>
      ([ Display (Error [Lit "None of the required macro features are in the dataset."]) ],
       Raise e)
  end.
Proof. rewrite bind_show. by destruct (join ", " parts). Qed.

(** ** No data *)

(** C5. When the loader returns no dataset ([None]) or an empty one, the
    page shows the data-unavailable error after the introduction and
    returns: the loader is called once, and nothing of [utils] and no
    widget is called after it. *)
Theorem no_data_halts (env : Env) :
  (load_data env = Ok None ∨
   ∃ df, load_data env = Ok (Some df) ∧ empty df = true) →
  main env =
    (trace intro ++
       [CallLoadData;
        Display (Error [Lit "Failed to load data. Please check your data source."])],
     Ok ()) ∧
  filter is_utils_call (trace (main env)) = [CallLoadData] ∧
  filter is_widget (trace (main env)) = [].
Proof.
  intros Hload.
  assert (main env =
    (trace intro ++
       [CallLoadData;
        Display (Error [Lit "Failed to load data. Please check your data source."])],
     Ok ())) as ->.
  { unfold main, select_features. rewrite bind_intro.
    destruct Hload as [-> | (df & -> & Hempty)].
    - done.
    - rewrite bind_call_ok, Hempty. done. }
  done.
Qed.

(** The loader returns [None]. *)
Lemma no_data_halts_witness :
  main Sample.no_data =
    (trace intro ++
       [CallLoadData;
        Display (Error [Lit "Failed to load data. Please check your data source."])],
     Ok ()) ∧
  filter is_utils_call (trace (main Sample.no_data)) = [CallLoadData] ∧
  filter is_widget (trace (main Sample.no_data)) = [].
Proof. apply no_data_halts. left. reflexivity. Defined.

(** ** Selecting the features *)

Lemma checkbox_loop_inv (env : Env) (features acc : list string)
    (t : list event) (selected : list string) :
  checkbox_loop env features acc = (t, Ok selected) →
  t = checkbox_call <$> features ∧
  ∃ l, l `sublist_of` features ∧ selected = acc ++ l.
Proof.
  revert acc t. induction features as [|feature rest IH]; intros acc t Hloop.
  - inversion Hloop. split; [done|]. exists []. by rewrite app_nil_r.
  - cbn [checkbox_loop] in Hloop.
    destruct (checkbox env feature true ("feature_" +:+ feature))
      as [checked|e]; [|done].
    rewrite bind_call_ok in Hloop.
    destruct (checkbox_loop env rest _) as [t' r'] eqn:Hrest.
    simplify_eq/=. apply IH in Hrest as [-> (l & Hl & ->)].
    split; [done|]. destruct checked.
    + exists (feature :: l). split; [by constructor|]. by rewrite <- app_assoc.
    + exists l. split; [by constructor|done].
Qed.

(** The page reaches the [try] only with a loaded, non-empty dataset and a
    non-empty selection among its available features, after the
    introduction, the loader and one checkbox per available feature. *)
Lemma select_features_inv (env : Env) (pre : list event) (df : DataFrame)
    (selected : list string) :
  select_features env = (pre, Ok (Some (df, selected))) →
  load_data env = Ok (Some df) ∧ empty df = false ∧
  selected ≠ [] ∧ selected `sublist_of` available_features df ∧
  pre = before_checkboxes ++ (checkbox_call <$> available_features df).
Proof.
  unfold select_features. rewrite bind_intro.
  destruct (load_data env) as [[df'|]|e]; [|done..].
  rewrite bind_call_ok. destruct (empty df') eqn:Hempty; [done|].
  destruct (available_features df') as [|feat avail] eqn:Havail.
  { rewrite no_features_page. by destruct (join ", " (labels df')). }
  rewrite !bind_show.
  destruct (checkbox_loop env (feat :: avail) []) as [t r] eqn:Hloop.
  destruct r as [sel|e]; [|done].
  rewrite bind_ok.
  destruct sel as [|s sel]; [done|].
  intros Heq. injection Heq as <- <- <-.
  apply checkbox_loop_inv in Hloop as [-> (l & Hl & Hsel)].
  simpl in Hsel. subst l.
  rewrite Havail, app_nil_r. done.
Qed.

Lemma checkbox_loop_unticked (env : Env) (features acc : list string) :
  (∀ feat, feat ∈ features →
     checkbox env feat true ("feature_" +:+ feat) = Ok false) →
  checkbox_loop env features acc = (checkbox_call <$> features, Ok acc).
Proof.
  revert acc. induction features as [|feature rest IH]; intros acc Hall.
  - done.
  - cbn [checkbox_loop]. rewrite (Hall feature) by left.
    rewrite bind_call_ok, IH; [done|].
    intros feat Hfeat. apply Hall. by right.
Qed.

(** Whatever the checkboxes answer, the loop calls nothing but the
    checkboxes of a prefix of the features. *)
Lemma checkbox_loop_trace (env : Env) (features acc : list string) :
  ∃ n, trace (checkbox_loop env features acc) = checkbox_call <$> take n features.
Proof.
  revert acc. induction features as [|feature rest IH]; intros acc.
  - by exists 0.
  - cbn [checkbox_loop].
    destruct (checkbox env feature true ("feature_" +:+ feature))
      as [checked|e].
    + rewrite bind_call_ok.
      destruct (IH (if checked then acc ++ [feature] else acc)) as [n Hn].
      exists (S n). simpl. by rewrite Hn.
    + by exists 1.
Qed.

Lemma errors_app (t1 t2 : list event) :
  errors (t1 ++ t2) = errors t1 ++ errors t2.
Proof.
  induction t1 as [|ev t1 IH]; [done|].
  destruct ev as [[]| | | | | |]; simpl; by rewrite ?IH.
Qed.

Lemma successes_app (t1 t2 : list event) :
  successes (t1 ++ t2) = successes t1 ++ successes t2.
Proof.
  induction t1 as [|ev t1 IH]; [done|].
  destruct ev as [[]| | | | | |]; simpl; by rewrite ?IH.
Qed.

Lemma errors_checkboxes (features : list string) :
  errors (checkbox_call <$> features) = [].
Proof. by induction features. Qed.

Lemma successes_checkboxes (features : list string) :
  successes (checkbox_call <$> features) = [].
Proof. by induction features. Qed.

Lemma utils_calls_checkboxes (features : list string) :
  filter is_utils_call (checkbox_call <$> features) = [].
Proof. by induction features. Qed.

(** ** No usable feature *)






(** ** No feature selected *)

(** C6. When the user unticks every checkbox, the page shows the
    select-at-least-one error right after the checkboxes and returns
    normally: no exception is raised and the model is not trained. *)
Theorem no_selection_halts (env : Env) (btc_macro_df : DataFrame) :
  load_data env = Ok (Some btc_macro_df) →
  empty btc_macro_df = false →
  available_features btc_macro_df ≠ [] →
  (∀ feat, feat ∈ available_features btc_macro_df →
     checkbox env feat true ("feature_" +:+ feat) = Ok false) →
  main env =
    (before_checkboxes ++
     (checkbox_call <$> available_features btc_macro_df) ++
     [Display (Error [Lit "Please select at least one feature for prediction."])],
     Ok ()) ∧
  filter is_utils_call (trace (main env)) = [CallLoadData].
Proof.
  intros Hload Hempty Havail Hunticked.
  assert (main env =
    (before_checkboxes ++
     (checkbox_call <$> available_features btc_macro_df) ++
     [Display (Error [Lit "Please select at least one feature for prediction."])],
     Ok ())) as ->.
  { unfold main, select_features.
    rewrite bind_intro, Hload, bind_call_ok, Hempty.
    destruct (available_features btc_macro_df) as [|feat avail] eqn:E;
      [done|].
    rewrite !bind_show, (checkbox_loop_unticked env _ _ Hunticked), bind_ok.
    unfold before_checkboxes. cbn. by rewrite app_nil_r. }
  split; [done|].
  unfold trace; cbn [fst]. by rewrite !filter_app, utils_calls_checkboxes.
Qed.

Lemma no_selection_halts_witness :
  main Sample.all_unticked =
    (before_checkboxes ++
     [ CallCheckbox "gold_price_usd" true "feature_gold_price_usd";
       CallCheckbox "SP500" true "feature_SP500";
       CallCheckbox "fed_funds_rate" true "feature_fed_funds_rate";
       Display (Error [Lit "Please select at least one feature for prediction."]) ],
     Ok ()) ∧
  filter is_utils_call (trace (main Sample.all_unticked)) = [CallLoadData].
Proof.
  apply (no_selection_halts Sample.all_unticked Sample.btc_macro_df).
  - reflexivity.
  - reflexivity.
  - by vm_compute.
  - reflexivity.
Defined.

(** ** From the [try] on *)

Lemma main_after_selection (env : Env) (pre : list event) (df : DataFrame)
    (selected : list string) :
  select_features env = (pre, Ok (Some (df, selected))) →
  main env =
    (pre ++ trace (try_except (train_and_render env df selected)
                              except_handler),
     outcome (try_except (train_and_render env df selected) except_handler)).
Proof. intros Hsel. unfold main. by rewrite Hsel, bind_ok. Qed.

Lemma widgets_checkboxes (features : list string) :
  filter is_widget (checkbox_call <$> features) = checkbox_call <$> features.
Proof. induction features as [|f l IH]; [done|]. simpl. by rewrite <- IH at 2. Qed.

(** C8. When training returns without a model, without a cleaned
    dataframe or with an empty one, the page shows the training-failure
    error right after the call of the trainer and returns normally: after
    the checkboxes nothing else is rendered, no slider, no button and no
    model information. *)
Theorem training_failure_halts (env : Env) (pre : list event)
    (btc_macro_df : DataFrame) (selected_features : list string)
    (model : option Model) (r_squared rmse : option pyfloat)
    (clean_df : option DataFrame) :
  select_features env = (pre, Ok (Some (btc_macro_df, selected_features))) →
  train_model env btc_macro_df selected_features =
    Ok (model, r_squared, rmse, clean_df) →
  (model = None ∨ clean_df = None ∨
   ∃ df, clean_df = Some df ∧ empty df = true) →
  main env =
    (before_checkboxes ++
     (checkbox_call <$> available_features btc_macro_df) ++
     [ CallTrainModel btc_macro_df selected_features;
       Display (Error [Lit "Could not train model. Please check your data."]) ],
     Ok ()) ∧
  filter is_widget (trace (main env)) =
    checkbox_call <$> available_features btc_macro_df ∧
  errors (trace (main env)) =
    [[Lit "Could not train model. Please check your data."]].
Proof.
  intros Hsel Htrain Hfail.
  rewrite (main_after_selection _ _ _ _ Hsel).
  apply select_features_inv in Hsel as (_ & _ & _ & _ & ->).
  assert (train_and_render env btc_macro_df selected_features =
    ([ CallTrainModel btc_macro_df selected_features;
       Display (Error [Lit "Could not train model. Please check your data."]) ],
     Ok ())) as ->.
  { unfold train_and_render. rewrite Htrain, bind_call_ok.
    destruct Hfail as [-> | [-> | (df & -> & Hempty)]].
    - done.
    - by destruct model.
    - destruct model; [|done]. by rewrite Hempty. }
  cbn [try_except trace outcome fst snd]. rewrite <- app_assoc.
  split; [done|]. split.
  - rewrite !filter_app, widgets_checkboxes. cbn. by rewrite app_nil_r.
  - rewrite !errors_app, errors_checkboxes. done.
Qed.

Lemma training_failure_halts_witness :
  main Sample.untrained =
    (before_checkboxes ++
     (checkbox_call <$> available_features Sample.btc_macro_df) ++
     [ CallTrainModel Sample.btc_macro_df
         ["gold_price_usd"; "SP500"; "fed_funds_rate"];
       Display (Error [Lit "Could not train model. Please check your data."]) ],
     Ok ()) ∧
  filter is_widget (trace (main Sample.untrained)) =
    checkbox_call <$> available_features Sample.btc_macro_df ∧
  errors (trace (main Sample.untrained)) =
    [[Lit "Could not train model. Please check your data."]].
Proof.
  apply (training_failure_halts Sample.untrained
           (trace (select_features Sample.untrained))
           Sample.btc_macro_df ["gold_price_usd"; "SP500"; "fed_funds_rate"]
           None None None None).
  - reflexivity.
  - reflexivity.
  - left. reflexivity.
Defined.

(** ** Exceptions *)

(** C3, as amended. An exception raised from the call of the trainer on
    is caught when its class derives from [Exception]: the page then
    shows an error box with the exception's message, a second one with
    the formatted traceback, and returns normally.  An exception whose
    class does not derive from [Exception] passes through the handler and
    leaves [main]. *)
Theorem exceptions_caught (env : Env) (pre : list event)
    (btc_macro_df : DataFrame) (selected_features : list string) :
  select_features env = (pre, Ok (Some (btc_macro_df, selected_features))) →
  (∀ t e,
     train_and_render env btc_macro_df selected_features = (t, Raise e) →
     exn_is_Exception e = true →
     main env =
       (pre ++ t ++
        [ Display (Error [Lit "An error occurred: "; Str e]);
          Display (Error [FormatExc e]) ],
        Ok ())) ∧
  (∀ t e,
     train_and_render env btc_macro_df selected_features = (t, Raise e) →
     exn_is_Exception e = false →
     main env = (pre ++ t, Raise e)).
Proof.
  intros Hsel. rewrite (main_after_selection _ _ _ _ Hsel).
  split; intros t e -> Hclass; unfold try_except; rewrite Hclass; done.
Qed.

(** Training fails with an exception of numpy. *)
Lemma exceptions_caught_witness :
  main Sample.failing =
    (trace (select_features Sample.failing) ++
     [ CallTrainModel Sample.btc_macro_df
         ["gold_price_usd"; "SP500"; "fed_funds_rate"] ] ++
     [ Display (Error [Lit "An error occurred: "; Str Sample.LinAlgError]);
       Display (Error [FormatExc Sample.LinAlgError]) ],
     Ok ()).
Proof.
  apply (proj1 (exceptions_caught Sample.failing
                  (trace (select_features Sample.failing))
                  Sample.btc_macro_df
                  ["gold_price_usd"; "SP500"; "fed_funds_rate"] eq_refl)).
  - reflexivity.
  - reflexivity.
Defined.

(** C3, as stated, fails: a [KeyboardInterrupt] raised by the trainer is
    not caught.  It leaves [main], and no error box is shown. *)
Lemma every_exception_caught_counterexample :
  train_and_render Sample.interrupted Sample.btc_macro_df
      ["gold_price_usd"; "SP500"; "fed_funds_rate"] =
    ([ CallTrainModel Sample.btc_macro_df
         ["gold_price_usd"; "SP500"; "fed_funds_rate"] ],
     Raise Sample.KeyboardInterrupt) ∧
  outcome (main Sample.interrupted) = Raise Sample.KeyboardInterrupt ∧
  errors (trace (main Sample.interrupted)) = [].
Proof. by vm_compute. Qed.

Lemma select_features_raise_inv (env : Env) (pre : list event) (e : exn) :
  select_features env = (pre, Raise e) →
  (load_data env = Raise e ∧ pre = trace intro ++ [CallLoadData]) ∨
  (∃ df, load_data env = Ok (Some df) ∧
         join ", " (labels df) = Raise e ∧
         pre = trace intro ++
               [ CallLoadData;
                 Display (Error [Lit "None of the required macro features are in the dataset."]) ]) ∨
  (∃ df t, load_data env = Ok (Some df) ∧
           checkbox_loop env (available_features df) [] = (t, Raise e) ∧
           pre = before_checkboxes ++ t).
Proof.
  unfold select_features. rewrite bind_intro.
  destruct (load_data env) as [[df|]|e0].
  - rewrite bind_call_ok. destruct (empty df); [done|].
    destruct (available_features df) as [|feat avail] eqn:Havail.
    { rewrite no_features_page.
      destruct (join ", " (labels df)) as [joined|e1] eqn:Hjoin; [done|].
      intros [= <- <-]. right. left. by exists df. }
    rewrite !bind_show.
    destruct (checkbox_loop env (feat :: avail) []) as [t [sel|e1]] eqn:Hloop.
    + rewrite bind_ok. by destruct sel.
    + rewrite bind_raise. intros [= <- <-]. right. right. exists df, t.
      rewrite Havail. repeat split; try done.
  - by rewrite bind_call_ok.
  - intros [= <- <-]. by left.
Qed.

(** C9. An exception raised before the [try] leaves [main]: the one
    raised by the loader, the one raised by a checkbox, and so every
    exception raised while the features are selected.  The handler does
    not run: the trace ends at the call that raised and holds no error
    box of the handler (at most the configuration error shown before the
    columns are joined), also for an exception whose class derives from
    [Exception]. *)
Theorem exceptions_before_try_propagate (env : Env) (e : exn) :
  (load_data env = Raise e →
   main env = (trace intro ++ [CallLoadData], Raise e)) ∧
  (∀ df t,
     load_data env = Ok (Some df) → empty df = false →
     available_features df ≠ [] →
     checkbox_loop env (available_features df) [] = (t, Raise e) →
     main env = (before_checkboxes ++ t, Raise e)) ∧
  (∀ pre,
     select_features env = (pre, Raise e) →
     main env = (pre, Raise e) ∧
     (errors pre = [] ∨
      errors pre =
        [[Lit "None of the required macro features are in the dataset."]])).
Proof.
  split; [|split].
  - intros Hload. unfold main, select_features.
    by rewrite bind_intro, Hload.
  - intros df t Hload Hempty Havail Hloop. unfold main, select_features.
    rewrite bind_intro, Hload, bind_call_ok, Hempty.
    destruct (available_features df) as [|feat avail]; [done|].
    by rewrite !bind_show, Hloop.
  - intros pre Hsel. split; [unfold main; by rewrite Hsel|].
    apply select_features_raise_inv in Hsel
      as [[_ ->] | [(df & _ & _ & ->) | (df & t & _ & Hloop & ->)]];
      [by left|by right|left].
    destruct (checkbox_loop_trace env (available_features df) []) as [n Hn].
    rewrite Hloop in Hn. simpl in Hn. subst t.
    by rewrite errors_app, errors_checkboxes.
Qed.

(** The data file is missing: the loader's [FileNotFoundError] is an
    [Exception] and still leaves [main]. *)
Lemma exceptions_before_try_propagate_witness :
  main Sample.unreadable =
    (trace intro ++ [CallLoadData], Raise Sample.FileNotFoundError).
Proof.
  apply (proj1 (exceptions_before_try_propagate Sample.unreadable
                  Sample.FileNotFoundError)).
  reflexivity.
Defined.

(** ** Messages *)

(** [repr] of a label, as [str] of a [KeyError] shows it. *)
Example repr_plain : repr "SP500" = "'SP500'".
Proof. reflexivity. Qed.

Example repr_single_quote : repr "a'b" = dquote +:+ "a'b" +:+ dquote.
Proof. reflexivity. Qed.

Example repr_both_quotes :
  repr ("a'b" +:+ dquote +:+ "c") = "'a\'b" +:+ dquote +:+ "c'".
Proof. reflexivity. Qed.

Example repr_backslash : repr "a\b" = "'a\\b'".
Proof. reflexivity. Qed.

Example repr_control :
  repr (String "010" (String "009" (String "001" (String "127" EmptyString))))
  = "'\n\t\x01\x7f'".
Proof. reflexivity. Qed.

Example join_strings_only :
  join ", " [StrLabel "a"; StrLabel "b"; StrLabel "c"] = Ok "a, b, c".
Proof. reflexivity. Qed.

Example join_refuses_int :
  join ", " [StrLabel "a"; OtherLabel "int"] =
  Raise (TypeError "sequence item 1: expected str instance, int found").
Proof. reflexivity. Qed.

(** ** The statistics of a column *)

(** Missing values are skipped; a column without a value has no
    statistic. *)
Example series_min_skips_nan : series_min [3; nan; 1; 2]%float = 1%float.
Proof. reflexivity. Qed.

Example series_max_skips_nan : series_max [3; nan; 1; 2]%float = 3%float.
Proof. reflexivity. Qed.

Example series_median_odd : series_median [3; nan; 1; 2]%float = 2%float.
Proof. reflexivity. Qed.

Example series_median_even : series_median [4; 1; 3; 2]%float = 2.5%float.
Proof. reflexivity. Qed.

Example series_of_nothing :
  PrimFloat.is_nan (series_min [nan]%float) = true ∧
  PrimFloat.is_nan (series_max []) = true ∧
  PrimFloat.is_nan (series_median [nan; nan]%float) = true.
Proof. by vm_compute. Qed.

(** The arithmetic is the doubles': the distance of two large bounds
    overflows, and the mean of two values is rounded. *)
Example step_overflows :
  ((0x1p1023 - -0x1p1023) / 100)%float = infinity.
Proof. reflexivity. Qed.

Example series_median_rounds :
  series_median [0x1p0; 0x1.0000000000001p0]%float = 0x1p0%float.
Proof. reflexivity. Qed.

Lemma getitem_ok (float_error : string) (df : DataFrame) (name : string)
    (col : list float) :
  getitem float_error df name = Ok col ↔ labelled df name = [col].
Proof.
  unfold getitem. destruct (labelled df name) as [|c [|c' l]]; split;
    intros; by simplify_eq.
Qed.

(** ** The sliders *)

Lemma trace_bind {A B : Type} (m : page A) (f : A → page B) :
  trace (m ≫= f) =
  trace m ++ match outcome m with Ok a => trace (f a) | Raise _ => [] end.
Proof.
  destruct m as [t [a|e]].
  - by rewrite bind_ok.
  - by rewrite bind_raise, app_nil_r.
Qed.

Lemma trace_try_except {A : Type} (m : page A) (h : exn → page A) :
  trace (try_except m h) =
  trace m ++ match outcome m with
             | Raise e => if exn_is_Exception e then trace (h e) else []
             | Ok _ => []
             end.
Proof.
  destruct m as [t [a|e]]; simpl; [by rewrite app_nil_r|].
  destruct (exn_is_Exception e); simpl; [|by rewrite app_nil_r].
  by destruct (h e).
Qed.

(** The slider of a feature, as the loop builds it from the column. *)
Lemma slider_loop_inv (env : Env) (clean_df : DataFrame)
    (features : list string) (acc : list Q) (ts : list event)
    (feature_values : list Q) :
  slider_loop env clean_df features acc = (ts, Ok feature_values) →
  Forall2 (λ ev feature, slider_of clean_df feature ev) ts features ∧
  Forall (λ ev, is_Some (slider_answer env ev)) ts ∧
  length feature_values = length acc + length features.
Proof.
  revert acc ts. induction features as [|feature rest IH]; intros acc ts Hloop.
  - inversion Hloop. repeat split; [constructor..|]. simpl. lia.
  - cbn [slider_loop] in Hloop.
    destruct (getitem (float_error env) clean_df feature) as [col|e] eqn:Hcol;
      [|done].
    rewrite !bind_lift_ok in Hloop.
    destruct (slider env feature _ _ _ _ _) as [feature_val|e] eqn:Hslider;
      [|done].
    rewrite bind_call_ok in Hloop.
    destruct (slider_loop env clean_df rest _) as [t' r'] eqn:Hrest.
    simpl in Hloop. injection Hloop as <- ->.
    apply IH in Hrest as (Hts & Hanswered & Hlen). repeat split.
    + constructor; [|done]. exists col. by apply getitem_ok in Hcol.
    + constructor; [|done]. cbn [slider_answer]. by rewrite Hslider.
    + rewrite Hlen, length_app. simpl. lia.
Qed.


(** The loop completes when every feature has its column and its slider
    answers. *)
Lemma slider_loop_completes (env : Env) (clean_df : DataFrame)
    (features : list string) (acc : list Q) :
  (∀ feature, feature ∈ features →
     ∃ ev, slider_of clean_df feature ev ∧ is_Some (slider_answer env ev)) →
  ∃ ts vals, slider_loop env clean_df features acc = (ts, Ok vals).
Proof.
  revert acc. induction features as [|feature rest IH]; intros acc Hall.
  - by exists [], acc.
  - destruct (Hall feature) as (ev & (col & Hcol & ->) & [q Hq]); [by left|].
    cbn [slider_loop]. apply (getitem_ok (float_error env)) in Hcol.
    rewrite Hcol, !bind_lift_ok.
    cbn [slider_answer] in Hq.
    destruct (slider env feature _ _ _ _ _) as [feature_val|e]; [|done].
    rewrite bind_call_ok.
    destruct (IH (acc ++ [feature_val])) as (ts & vals & ->).
    { intros f Hf. apply Hall. by right. }
    by eexists _, _.
Qed.

(** Whatever the sliders answer, the loop calls nothing but sliders. *)
Lemma slider_loop_trace (env : Env) (clean_df : DataFrame)
    (features : list string) (acc : list Q) :
  Forall (λ ev, is_slider ev = true)
    (trace (slider_loop env clean_df features acc)).
Proof.
  revert acc. induction features as [|feature rest IH]; intros acc.
  - constructor.
  - cbn [slider_loop].
    destruct (getitem (float_error env) clean_df feature) as [col|e];
      [|constructor].
    rewrite !bind_lift_ok.
    destruct (slider env feature _ _ _ _ _) as [feature_val|e].
    + rewrite bind_call_ok. constructor; [done|apply IH].
    + by repeat constructor.
Qed.

Lemma only_sliders (ts : list event) :
  Forall (λ ev, is_slider ev = true) ts →
  filter is_slider ts = ts ∧ errors ts = [] ∧ successes ts = [].
Proof.
  induction 1 as [|ev ts Hev _ (IH1 & IH2 & IH3)]; [done|].
  destruct ev; try done. simpl in *. by rewrite <- IH1 at 2.
Qed.

Lemma sliders_checkboxes (features : list string) :
  filter is_slider (checkbox_call <$> features) = [].
Proof. by induction features. Qed.

Lemma sliders_predict (env : Env) (model : Model) (feature_values : list Q) :
  filter is_slider (trace (predict env model feature_values)) = [].
Proof.
  unfold predict. destruct (button env _) as [[]|e]; [|done..].
  rewrite bind_call_ok.
  by destruct (make_prediction env model feature_values) as [[p|]|e].
Qed.

Lemma sliders_model_information (model : Model)
    (r_squared rmse : option pyfloat) (selected_features : list string) :
  filter is_slider
    (trace (model_information model r_squared rmse selected_features)) = [].
Proof.
  unfold model_information, pd_DataFrame.
  destruct r_squared, rmse; try done; by case_bool_decide.
Qed.

(** The body of the [try] once the model is trained and the sliders are
    rendered. *)
Lemma train_and_render_trained (env : Env) (btc_macro_df : DataFrame)
    (selected_features : list string) (model : Model)
    (r_squared rmse : option pyfloat) (clean_df : DataFrame)
    (ts : list event) (feature_values : list Q) :
  train_model env btc_macro_df selected_features =
    Ok (Some model, r_squared, rmse, Some clean_df) →
  empty clean_df = false →
  slider_loop env clean_df selected_features [] = (ts, Ok feature_values) →
  train_and_render env btc_macro_df selected_features =
    (CallTrainModel btc_macro_df selected_features
     :: Display (Subheader [Lit "Make a Prediction"])
     :: ts ++
        trace (predict env model feature_values;;
               model_information model r_squared rmse selected_features),
     outcome (predict env model feature_values;;
              model_information model r_squared rmse selected_features)).
Proof.
  intros Htrain Hempty Hloop. unfold train_and_render.
  rewrite Htrain, bind_call_ok. cbn iota. rewrite Hempty.
  by rewrite bind_show, Hloop, bind_ok.
Qed.

Lemma sliders_before_try (env : Env) (pre : list event) (df : DataFrame)
    (selected : list string) :
  select_features env = (pre, Ok (Some (df, selected))) →
  filter is_slider pre = [] ∧ errors pre = [] ∧ successes pre = [] ∧
  NoDup selected.
Proof.
  intros (_ & _ & _ & Hsub & ->)%select_features_inv.
  rewrite filter_app, errors_app, successes_app, sliders_checkboxes,
    errors_checkboxes, successes_checkboxes.
  repeat split; try done.
  eapply sublist_NoDup; [|exact Hsub].
  eapply sublist_NoDup; [exact NoDup_macro_features|apply sublist_filter].
Qed.

Lemma sliders_try_except (m : page unit) :
  filter is_slider (trace (try_except m except_handler)) =
  filter is_slider (trace m).
Proof.
  rewrite trace_try_except, filter_app.
  destruct (outcome m) as [|e]; [by rewrite app_nil_r|].
  destruct (exn_is_Exception e); by rewrite app_nil_r.
Qed.

Lemma sliders_after_sliders (env : Env) (model : Model)
    (r_squared rmse : option pyfloat) (selected_features : list string)
    (feature_values : list Q) :
  filter is_slider
    (trace (predict env model feature_values;;
            model_information model r_squared rmse selected_features)) = [].
Proof.
  rewrite trace_bind, filter_app, sliders_predict.
  destruct (outcome (predict env model feature_values));
    [apply sliders_model_information|done].
Qed.


(** The slider calls of a run that has trained its model: those of the
    loop over the sliders, however the loop ends. *)
Lemma sliders_of_main (env : Env) (pre : list event) (df : DataFrame)
    (selected : list string) (model : Model) (r_squared rmse : option pyfloat)
    (clean_df : DataFrame) :
  select_features env = (pre, Ok (Some (df, selected))) →
  train_model env df selected =
    Ok (Some model, r_squared, rmse, Some clean_df) →
  empty clean_df = false →
  filter is_slider (trace (main env)) =
    trace (slider_loop env clean_df selected []).
Proof.
  intros Hsel Htrain Hempty.
  destruct (sliders_before_try _ _ _ _ Hsel) as (Hpre & _).
  rewrite (main_after_selection _ _ _ _ Hsel), trace_pair.
  rewrite filter_app, Hpre, sliders_try_except. cbn [app].
  unfold train_and_render. rewrite Htrain, bind_call_ok, trace_pair.
  cbn iota. rewrite Hempty, bind_show, trace_pair, trace_bind.
  rewrite !filter_cons, filter_app. cbn [is_slider]. cbn iota.
  destruct (only_sliders _ (slider_loop_trace env clean_df selected []))
    as (-> & _ & _).
  destruct (outcome (slider_loop env clean_df selected [])) as [vals|e];
    [|by rewrite app_nil_r].
  by rewrite sliders_after_sliders, app_nil_r.
Qed.




(** ** A prediction of [None] *)

(** With both scores and one coefficient per selected feature, the model
    information renders in full, without an error or a success box. *)
Lemma model_information_renders (model : Model) (r_squared rmse : pyfloat)
    (selected_features : list string) :
  length selected_features = length (coef_ model) →
  outcome (model_information model (Some r_squared) (Some rmse)
             selected_features) = Ok () ∧
  errors (trace (model_information model (Some r_squared) (Some rmse)
                   selected_features)) = [] ∧
  successes (trace (model_information model (Some r_squared) (Some rmse)
                      selected_features)) = [].
Proof.
  intros Hlen. unfold model_information, pd_DataFrame.
  by rewrite bool_decide_eq_true_2.
Qed.

(** C10. When the button is pressed and the predictor returns [None], the
    page shows no predicted price and no error: after the call of the
    predictor it goes on with the model information, rendered in full,
    and returns normally. *)
Theorem none_prediction_dropped (env : Env) (pre : list event)
    (btc_macro_df : DataFrame) (selected_features : list string)
    (model : Model) (r_squared rmse : pyfloat) (clean_df : DataFrame)
    (ts : list event) (feature_values : list Q) :
  select_features env = (pre, Ok (Some (btc_macro_df, selected_features))) →
  train_model env btc_macro_df selected_features =
    Ok (Some model, Some r_squared, Some rmse, Some clean_df) →
  empty clean_df = false →
  slider_loop env clean_df selected_features [] = (ts, Ok feature_values) →
  button env "Predict BTC Price" = Ok true →
  make_prediction env model feature_values = Ok None →
  length selected_features = length (coef_ model) →
  main env =
    (pre ++
     [ CallTrainModel btc_macro_df selected_features;
       Display (Subheader [Lit "Make a Prediction"]) ] ++
     ts ++
     [ CallButton "Predict BTC Price";
       CallMakePrediction model feature_values ] ++
     trace (model_information model (Some r_squared) (Some rmse)
              selected_features),
     Ok ()) ∧
  successes (trace (main env)) = [] ∧
  errors (trace (main env)) = [].
Proof.
  intros Hsel Htrain Hempty Hloop Hbutton Hnone Hlen.
  destruct (sliders_before_try _ _ _ _ Hsel) as (_ & Hpre_e & Hpre_s & _).
  destruct (model_information_renders model r_squared rmse _ Hlen)
    as (Hinfo & Hinfo_e & Hinfo_s).
  pose proof (slider_loop_trace env clean_df selected_features []) as Hts.
  rewrite Hloop in Hts. unfold trace in Hts. cbn [fst] in Hts.
  apply only_sliders in Hts as (_ & Hts_e & Hts_s).
  assert (main env =
    (pre ++
     [ CallTrainModel btc_macro_df selected_features;
       Display (Subheader [Lit "Make a Prediction"]) ] ++
     ts ++
     [ CallButton "Predict BTC Price";
       CallMakePrediction model feature_values ] ++
     trace (model_information model (Some r_squared) (Some rmse)
              selected_features),
     Ok ())) as ->.
  { rewrite (main_after_selection _ _ _ _ Hsel).
    rewrite (train_and_render_trained _ _ _ _ _ _ _ _ _ Htrain Hempty Hloop).
    unfold predict. rewrite Hbutton, bind_call_ok, Hnone, bind_call_ok.
    cbn [trace outcome fst snd mret page_ret].
    rewrite bind_ok. cbn [trace outcome fst snd].
    rewrite Hinfo. cbn [try_except fst snd]. done. }
  split; [done|]. unfold trace at 1 3. cbn [fst].
  rewrite !successes_app, !errors_app, Hpre_e, Hpre_s, Hts_e, Hts_s,
    Hinfo_e, Hinfo_s.
  done.
Qed.

Lemma none_prediction_dropped_witness :
  main Sample.no_prediction =
    (trace (select_features Sample.no_prediction) ++
     [ CallTrainModel Sample.btc_macro_df Sample.selected;
       Display (Subheader [Lit "Make a Prediction"]) ] ++
     trace (slider_loop Sample.no_prediction Sample.clean_df
              Sample.selected []) ++
     [ CallButton "Predict BTC Price";
       CallMakePrediction (Sample.model Sample.selected)
         [1500; 3000; 5 # 2]%Q ] ++
     trace (model_information (Sample.model Sample.selected)
              (Some (Fin (872 # 1000))) (Some (Fin 7930)) Sample.selected),
     Ok ()) ∧
  successes (trace (main Sample.no_prediction)) = [] ∧
  errors (trace (main Sample.no_prediction)) = [].
Proof.
  apply (none_prediction_dropped Sample.no_prediction
           (trace (select_features Sample.no_prediction))
           Sample.btc_macro_df Sample.selected
           (Sample.model Sample.selected) (Fin (872 # 1000)) (Fin 7930)
           Sample.clean_df).
  - reflexivity.
  - reflexivity.
  - reflexivity.
  - reflexivity.
  - reflexivity.
  - reflexivity.
  - reflexivity.
Defined.

(** ** The predictor *)

Lemma dot_along (a : Q) (c v w : list Q) :
  length v = length c → length w = length c →
  (Utils.dot c (Utils.along a v w) ==
   a * Utils.dot c v + (1 - a) * Utils.dot c w)%Q.
Proof.
  revert v w. induction c as [|k c IH]; intros [|x v] [|y w] Hv Hw;
    simplify_eq/=.
  - ring.
  - rewrite (IH v w) by done. ring.
Qed.

Lemma length_along (a : Q) (v w : list Q) :
  length v = length w → length (Utils.along a v w) = length v.
Proof.
  unfold Utils.along. rewrite length_zip_with. lia.
Qed.

(** C1. For a feature vector with one value per coefficient, the
    predictor returns the scalar intercept + dot(coefficients, v), whatever
    the values are: nothing is clamped, refused or flagged.  So the
    prediction is affine along every line: at a·v + (1 - a)·w it is
    a·p(v) + (1 - a)·p(w), also for [a] outside [0, 1], where the point
    lies outside the segment between [v] and [w]. *)
Theorem make_prediction_linear (model : Model) (v : list Q) :
  length v = length (coef_ model) →
  Utils.make_prediction model v =
    Some (intercept_ model + Utils.dot (coef_ model) v)%Q ∧
  ∀ (w : list Q) (a : Q),
    length w = length (coef_ model) →
    ∃ p q r,
      Utils.make_prediction model v = Some p ∧
      Utils.make_prediction model w = Some q ∧
      Utils.make_prediction model (Utils.along a v w) = Some r ∧
      (r == a * p + (1 - a) * q)%Q.
Proof.
  intros Hv.
  assert (∀ u, length u = length (coef_ model) →
            Utils.make_prediction model u =
              Some (intercept_ model + Utils.dot (coef_ model) u)%Q) as Hp.
  { intros u Hu. unfold Utils.make_prediction.
    by rewrite bool_decide_eq_true_2. }
  split; [by apply Hp|].
  intros w a Hw. eexists _, _, _.
  split; [by apply Hp|]. split; [by apply Hp|]. split.
  - apply Hp. rewrite length_along; congruence.
  - rewrite dot_along by done. ring.
Qed.

(** The fit of the spec's example, price = 10·x: at x = 4, outside the
    training range [1, 3], the prediction is 40. *)
Lemma make_prediction_linear_witness :
  Utils.make_prediction (mkModel 0 [10%Q]) [4%Q] =
    Some (0 + Utils.dot [10%Q] [4%Q])%Q ∧
  ∀ (w : list Q) (a : Q),
    length w = 1 →
    ∃ p q r,
      Utils.make_prediction (mkModel 0 [10%Q]) [4%Q] = Some p ∧
      Utils.make_prediction (mkModel 0 [10%Q]) w = Some q ∧
      Utils.make_prediction (mkModel 0 [10%Q]) (Utils.along a [4%Q] w) =
        Some r ∧
      (r == a * p + (1 - a) * q)%Q.
Proof. apply (make_prediction_linear (mkModel 0 [10%Q]) [4%Q]). reflexivity. Defined.

(** * Further properties of the page *)

(** ** The selection *)

Lemma checkbox_loop_ticked (env : Env) (features acc : list string)
    (t : list event) (selected : list string) :
  checkbox_loop env features acc = (t, Ok selected) →
  selected = acc ++ filter (λ feat, ticked env feat) features.
Proof.
  revert acc t. induction features as [|feature rest IH]; intros acc t Hloop.
  - inversion Hloop. by rewrite app_nil_r.
  - cbn [checkbox_loop] in Hloop.
    destruct (checkbox env feature true ("feature_" +:+ feature))
      as [checked|e] eqn:Hbox; [|done].
    rewrite bind_call_ok in Hloop.
    destruct (checkbox_loop env rest _) as [t' r'] eqn:Hrest.
    simpl in Hloop. injection Hloop as <- ->. apply IH in Hrest as ->.
    rewrite filter_cons.
    destruct (decide (ticked env feature)) as [Ht|Ht];
      unfold ticked in Ht; rewrite Hbox in Ht; destruct checked; try done.
    by rewrite <- app_assoc.
Qed.

(** The selection, read off the checkboxes. *)
Lemma select_features_ticked (env : Env) (pre : list event)
    (btc_macro_df : DataFrame) (selected_features : list string) :
  select_features env = (pre, Ok (Some (btc_macro_df, selected_features))) →
  selected_features =
    filter (λ feat, ticked env feat) (available_features btc_macro_df) ∧
  ∀ feat, feat ∈ selected_features ↔
          feat ∈ macro_features ∧ feat ∈ columns btc_macro_df ∧
          checkbox env feat true ("feature_" +:+ feat) = Ok true.
Proof.
  intros Hsel.
  assert (selected_features =
    filter (λ feat, ticked env feat) (available_features btc_macro_df))
    as Heq.
  { revert Hsel. unfold select_features. rewrite bind_intro.
    destruct (load_data env) as [[df|]|e]; [|done..].
    rewrite bind_call_ok. destruct (empty df); [done|].
    destruct (available_features df) as [|feat avail] eqn:Havail.
    { rewrite no_features_page. by destruct (join ", " (labels df)). }
    rewrite !bind_show.
    destruct (checkbox_loop env (feat :: avail) []) as [t [sel|e]] eqn:Hloop;
      [|done].
    rewrite bind_ok. destruct sel as [|s sel]; [done|].
    intros [= _ <- <-]. rewrite Havail.
    by apply checkbox_loop_ticked in Hloop. }
  split; [done|]. intros feat. rewrite Heq, list_elem_of_filter.
  unfold available_features. rewrite list_elem_of_filter, Is_true_true.
  unfold ticked.
  destruct (checkbox env feat true ("feature_" +:+ feat)) as [[]|];
    intuition congruence.
Qed.

(** X1. When the page reaches the [try], the features it trains on are
    exactly the available features whose checkbox came back ticked, in the
    order of the candidates. *)
Theorem selected_are_ticked (env : Env) (pre : list event)
    (btc_macro_df : DataFrame) (selected_features : list string) :
  select_features env = (pre, Ok (Some (btc_macro_df, selected_features))) →
  selected_features =
    filter (λ feat, ticked env feat) (available_features btc_macro_df) ∧
  ∀ feat, feat ∈ selected_features ↔
          feat ∈ macro_features ∧ feat ∈ columns btc_macro_df ∧
          checkbox env feat true ("feature_" +:+ feat) = Ok true.
Proof. apply select_features_ticked. Qed.

Lemma selected_are_ticked_witness :
  ["SP500"; "fed_funds_rate"] =
    filter (λ feat, ticked Sample.two_ticked feat)
      (available_features Sample.btc_macro_df) ∧
  ∀ feat, feat ∈ ["SP500"; "fed_funds_rate"] ↔
          feat ∈ macro_features ∧ feat ∈ columns Sample.btc_macro_df ∧
          checkbox Sample.two_ticked feat true ("feature_" +:+ feat) = Ok true.
Proof.
  apply (selected_are_ticked Sample.two_ticked
           (trace (select_features Sample.two_ticked))).
  reflexivity.
Defined.

(** ** The calls into [utils] *)

Lemma outcome_bind {A B : Type} (m : page A) (f : A → page B) :
  outcome (m ≫= f) =
  match outcome m with Ok a => outcome (f a) | Raise e => Raise e end.
Proof. destruct m as [t [a|e]]; [by rewrite bind_ok|done]. Qed.

(** The three ways the page leaves the selection without a selection. *)
Lemma select_features_none_inv (env : Env) (pre : list event) :
  select_features env = (pre, Ok None) →
  pre = trace intro ++
        [ CallLoadData;
          Display (Error [Lit "Failed to load data. Please check your data source."]) ] ∨
  (∃ df joined, load_data env = Ok (Some df) ∧
     join ", " (labels df) = Ok joined ∧
     pre = trace intro ++
           [ CallLoadData;
             Display (Error [Lit "None of the required macro features are in the dataset."]);
             Display (Write [[Lit "Available columns:"]; [Lit joined]]) ]) ∨
  (∃ df, load_data env = Ok (Some df) ∧
     pre = before_checkboxes ++ (checkbox_call <$> available_features df) ++
           [Display (Error [Lit "Please select at least one feature for prediction."])]).
Proof.
  unfold select_features. rewrite bind_intro.
  destruct (load_data env) as [[df|]|e].
  - rewrite bind_call_ok. destruct (empty df).
    { intros [= <-]. by left. }
    destruct (available_features df) as [|feat avail] eqn:Havail.
    { rewrite no_features_page.
      destruct (join ", " (labels df)) as [joined|e] eqn:Hjoin; [|done].
      intros [= <-]. right. left. by exists df, joined. }
    rewrite !bind_show.
    destruct (checkbox_loop env (feat :: avail) []) as [t [sel|e]] eqn:Hloop;
      [|done].
    rewrite bind_ok. destruct sel as [|s sel]; [|done].
    intros [= <-]. right. right. exists df. split; [done|].
    apply checkbox_loop_inv in Hloop as [-> _]. rewrite Havail.
    unfold before_checkboxes. by cbn.
  - rewrite bind_call_ok. intros [= <-]. by left.
  - done.
Qed.

(** Whatever happens while the features are selected, the loader is the
    one function of [utils] called, once. *)
Lemma utils_calls_select_features (env : Env) :
  filter is_utils_call (trace (select_features env)) = [CallLoadData].
Proof.
  destruct (select_features env) as [pre [[[df sel]|]|e]] eqn:Hsel.
  - apply select_features_inv in Hsel as (_ & _ & _ & _ & ->).
    unfold trace; cbn [fst]. by rewrite filter_app, utils_calls_checkboxes.
  - apply select_features_none_inv in Hsel
      as [-> | [(df & joined & _ & _ & ->) | (df & _ & ->)]]; [done..|].
    unfold trace; cbn [fst]. by rewrite !filter_app, utils_calls_checkboxes.
  - apply select_features_raise_inv in Hsel
      as [[_ ->] | [(df & _ & _ & ->) | (df & t & _ & Hloop & ->)]];
      [done..|].
    destruct (checkbox_loop_trace env (available_features df) []) as [n Hn].
    rewrite Hloop in Hn. simpl in Hn. subst t.
    unfold trace; cbn [fst]. by rewrite filter_app, utils_calls_checkboxes.
Qed.

Lemma utils_calls_sliders (ts : list event) :
  Forall (λ ev, is_slider ev = true) ts → filter is_utils_call ts = [].
Proof. induction 1 as [|ev ts Hev _ IH]; [done|]. by destruct ev. Qed.

Lemma utils_calls_model_information (model : Model)
    (r_squared rmse : option pyfloat) (selected_features : list string) :
  filter is_utils_call
    (trace (model_information model r_squared rmse selected_features)) = [].
Proof.
  unfold model_information, pd_DataFrame.
  destruct r_squared, rmse; try done; by case_bool_decide.
Qed.

Lemma utils_calls_try_except (m : page unit) :
  filter is_utils_call (trace (try_except m except_handler)) =
  filter is_utils_call (trace m).
Proof.
  rewrite trace_try_except, filter_app.
  destruct (outcome m) as [|e]; [by rewrite app_nil_r|].
  destruct (exn_is_Exception e); by rewrite app_nil_r.
Qed.

(** The answers of the sliders are the values handed on. *)
Lemma slider_loop_answers (env : Env) (clean_df : DataFrame)
    (features : list string) (acc : list Q) (ts : list event)
    (feature_values : list Q) :
  slider_loop env clean_df features acc = (ts, Ok feature_values) →
  feature_values = acc ++ omap (slider_answer env) ts.
Proof.
  revert acc ts. induction features as [|feature rest IH]; intros acc ts Hloop.
  - inversion Hloop. by rewrite app_nil_r.
  - cbn [slider_loop] in Hloop.
    destruct (getitem (float_error env) clean_df feature) as [col|e]; [|done].
    rewrite !bind_lift_ok in Hloop.
    destruct (slider env feature _ _ _ _ _) as [feature_val|e] eqn:Hslider;
      [|done].
    rewrite bind_call_ok in Hloop.
    destruct (slider_loop env clean_df rest _) as [t' r'] eqn:Hrest.
    simpl in Hloop. injection Hloop as <- ->.
    apply IH in Hrest as ->. cbn [omap list_omap slider_answer].
    rewrite Hslider. by rewrite <- app_assoc.
Qed.

Lemma utils_calls_predict (env : Env) (model : Model)
    (feature_values : list Q) :
  filter is_utils_call (trace (predict env model feature_values)) = [] ∨
  button env "Predict BTC Price" = Ok true ∧
  filter is_utils_call (trace (predict env model feature_values)) =
    [CallMakePrediction model feature_values].
Proof.
  unfold predict. destruct (button env _) as [[]|e]; [|by left..].
  right. split; [done|]. rewrite bind_call_ok.
  by destruct (make_prediction env model feature_values) as [[p|]|e].
Qed.

(** The body of the [try] when a slider or its column raises. *)
Lemma train_and_render_sliders_raise (env : Env) (btc_macro_df : DataFrame)
    (selected_features : list string) (model : Model)
    (r_squared rmse : option pyfloat) (clean_df : DataFrame)
    (ts : list event) (e : exn) :
  train_model env btc_macro_df selected_features =
    Ok (Some model, r_squared, rmse, Some clean_df) →
  empty clean_df = false →
  slider_loop env clean_df selected_features [] = (ts, Raise e) →
  train_and_render env btc_macro_df selected_features =
    (CallTrainModel btc_macro_df selected_features
     :: Display (Subheader [Lit "Make a Prediction"]) :: ts,
     Raise e).
Proof.
  intros Htrain Hempty Hloop. unfold train_and_render.
  rewrite Htrain, bind_call_ok. cbn iota. rewrite Hempty.
  by rewrite bind_show, Hloop.
Qed.

(** The body of the [try] when training fails. *)
Lemma train_and_render_failed (env : Env) (btc_macro_df : DataFrame)
    (selected_features : list string) (model : option Model)
    (r_squared rmse : option pyfloat) (clean_df : option DataFrame) :
  train_model env btc_macro_df selected_features =
    Ok (model, r_squared, rmse, clean_df) →
  (model = None ∨ clean_df = None ∨
   ∃ df, clean_df = Some df ∧ empty df = true) →
  train_and_render env btc_macro_df selected_features =
    ([ CallTrainModel btc_macro_df selected_features;
       Display (Error [Lit "Could not train model. Please check your data."]) ],
     Ok ()).
Proof.
  intros Htrain Hfail. unfold train_and_render.
  rewrite Htrain, bind_call_ok.
  destruct Hfail as [-> | [-> | (df & -> & Hempty)]].
  - done.
  - by destruct model.
  - destruct model; [|done]. by rewrite Hempty.
Qed.

(** How the body of the [try] can go. *)
Lemma train_and_render_cases (env : Env) (df : DataFrame)
    (selected : list string) :
  (∃ e, train_model env df selected = Raise e) ∨
  (∃ model r_squared rmse clean_df,
     train_model env df selected = Ok (model, r_squared, rmse, clean_df) ∧
     (model = None ∨ clean_df = None ∨
      ∃ c, clean_df = Some c ∧ empty c = true)) ∨
  (∃ model r_squared rmse clean_df ts,
     train_model env df selected =
       Ok (Some model, r_squared, rmse, Some clean_df) ∧
     empty clean_df = false ∧
     ((∃ e, slider_loop env clean_df selected [] = (ts, Raise e)) ∨
      (∃ vals, slider_loop env clean_df selected [] = (ts, Ok vals)))).
Proof.
  destruct (train_model env df selected)
    as [[[[model r_squared] rmse] clean_df]|e] eqn:Htrain;
    [|left; by exists e].
  right. destruct model as [model|]; [|left; eauto 10].
  destruct clean_df as [clean_df|]; [|left; eauto 10].
  destruct (empty clean_df) eqn:Hempty; [left; eauto 10|].
  right. exists model, r_squared, rmse, clean_df.
  destruct (slider_loop env clean_df selected []) as [ts [vals|e]] eqn:Hloop;
    exists ts; eauto 10.
Qed.

(** From the [try] on, the trainer is called once, on the dataset and the
    selection, and the predictor at most once after it, on the trained
    model and the values of the sliders. *)
Lemma utils_calls_train_and_render (env : Env) (df : DataFrame)
    (selected : list string) :
  filter is_utils_call (trace (train_and_render env df selected)) =
    [CallTrainModel df selected] ∨
  ∃ model r_squared rmse clean_df ts feature_values,
    train_model env df selected =
      Ok (Some model, r_squared, rmse, Some clean_df) ∧
    empty clean_df = false ∧
    slider_loop env clean_df selected [] = (ts, Ok feature_values) ∧
    button env "Predict BTC Price" = Ok true ∧
    filter is_utils_call (trace (train_and_render env df selected)) =
      [CallTrainModel df selected; CallMakePrediction model feature_values].
Proof.
  destruct (train_and_render_cases env df selected)
    as [[e Htrain] | [(model & r2 & rmse & clean & Htrain & Hfail) |
        (model & r2 & rmse & clean & ts & Htrain & Hempty & Hloop)]].
  - left. unfold train_and_render. by rewrite Htrain.
  - left. by rewrite (train_and_render_failed _ _ _ _ _ _ _ Htrain Hfail).
  - pose proof (slider_loop_trace env clean selected []) as Hts.
    destruct Hloop as [[e Hloop] | [vals Hloop]];
      rewrite Hloop, trace_pair in Hts; apply utils_calls_sliders in Hts.
    + left.
      rewrite (train_and_render_sliders_raise _ _ _ _ _ _ _ _ _
                 Htrain Hempty Hloop), trace_pair.
      rewrite !filter_cons. cbn. by rewrite Hts.
    + rewrite (train_and_render_trained _ _ _ _ _ _ _ _ _
                 Htrain Hempty Hloop), trace_pair.
      rewrite !filter_cons, filter_app, Hts, trace_bind, filter_app.
      assert (filter is_utils_call
                match outcome (predict env model vals) with
                | Ok _ => trace (model_information model r2 rmse selected)
                | Raise _ => []
                end = []) as ->.
      { destruct (outcome (predict env model vals));
          [apply utils_calls_model_information|done]. }
      destruct (utils_calls_predict env model vals) as [-> | [Hbutton ->]];
        [by left|].
      right. by exists model, r2, rmse, clean, ts, vals.
Qed.

(** The calls into [utils] over the whole page. *)
Lemma utils_calls_main (env : Env) :
  (filter is_utils_call (trace (main env)) = [CallLoadData] ∧
   ∀ pre df selected,
     select_features env ≠ (pre, Ok (Some (df, selected)))) ∨
  ∃ pre df selected,
    select_features env = (pre, Ok (Some (df, selected))) ∧
    filter is_utils_call (trace (main env)) =
      CallLoadData ::
      filter is_utils_call (trace (train_and_render env df selected)).
Proof.
  pose proof (utils_calls_select_features env) as Hpre.
  destruct (select_features env) as [pre [[[df sel]|]|e]] eqn:Hsel.
  - right. exists pre, df, sel. split; [done|].
    rewrite (main_after_selection _ _ _ _ Hsel), trace_pair.
    rewrite filter_app, utils_calls_try_except.
    rewrite trace_pair in Hpre. by rewrite Hpre.
  - left. split; [|done]. unfold main. rewrite Hsel, bind_ok.
    cbn [mret page_ret]. rewrite !trace_pair, app_nil_r.
    by rewrite trace_pair in Hpre.
  - left. split; [|done]. unfold main. rewrite Hsel, bind_raise.
    by rewrite trace_pair in *.
Qed.

(** X2. The trainer is never called on anything but the loaded, non-empty
    dataset and a non-empty list of distinct candidate features that are
    columns of it and were ticked; and whenever it is called, it is called
    once, right after the loader, and followed by at most one call of the
    predictor. *)
Theorem trainer_called_on_selection (env : Env) (df : DataFrame)
    (features : list string) :
  CallTrainModel df features ∈ trace (main env) →
  load_data env = Ok (Some df) ∧ empty df = false ∧
  features ≠ [] ∧ NoDup features ∧
  (∀ feat, feat ∈ features →
     feat ∈ macro_features ∧ feat ∈ columns df ∧
     checkbox env feat true ("feature_" +:+ feat) = Ok true) ∧
  ∃ rest,
    filter is_utils_call (trace (main env)) =
      CallLoadData :: CallTrainModel df features :: rest ∧
    (rest = [] ∨ ∃ model vals, rest = [CallMakePrediction model vals]).
Proof.
  intros Hcall.
  assert (CallTrainModel df features ∈ filter is_utils_call (trace (main env)))
    as Hin by (by apply list_elem_of_filter).
  destruct (utils_calls_main env)
    as [[Hcalls _] | (pre & df' & sel & Hsel & Hcalls)];
    rewrite Hcalls in Hin.
  { apply list_elem_of_singleton in Hin. done. }
  assert (df' = df ∧ sel = features) as [-> ->].
  { destruct (utils_calls_train_and_render env df' sel)
      as [Htr | (m & ? & ? & ? & ? & v & _ & _ & _ & _ & Htr)];
      rewrite Htr in Hin;
      repeat (apply elem_of_cons in Hin as [Hin|Hin]; [by simplify_eq|]);
      by apply elem_of_nil in Hin. }
  destruct (sliders_before_try _ _ _ _ Hsel) as (_ & _ & _ & Hnodup).
  destruct (select_features_ticked _ _ _ _ Hsel) as [_ Hticked].
  apply select_features_inv in Hsel as (Hload & Hempty & Hne & _ & _).
  repeat split; try done; try (by apply Hticked).
  rewrite Hcalls.
  destruct (utils_calls_train_and_render env df features)
    as [-> | (m & ? & ? & ? & ? & v & _ & _ & _ & _ & ->)].
  - exists []. split; [done|by left].
  - exists [CallMakePrediction m v]. split; [done|]. right. by exists m, v.
Qed.

Lemma trainer_called_on_selection_witness :
  load_data Sample.env = Ok (Some Sample.btc_macro_df) ∧
  empty Sample.btc_macro_df = false ∧
  Sample.selected ≠ [] ∧ NoDup Sample.selected ∧
  (∀ feat, feat ∈ Sample.selected →
     feat ∈ macro_features ∧ feat ∈ columns Sample.btc_macro_df ∧
     checkbox Sample.env feat true ("feature_" +:+ feat) = Ok true) ∧
  ∃ rest,
    filter is_utils_call (trace (main Sample.env)) =
      CallLoadData :: CallTrainModel Sample.btc_macro_df Sample.selected
      :: rest ∧
    (rest = [] ∨ ∃ model vals, rest = [CallMakePrediction model vals]).
Proof.
  apply (trainer_called_on_selection Sample.env).
  apply (list_elem_of_lookup_2 _ 10). reflexivity.
Defined.

(** X3. The predictor is never called unless the button has been pressed
    on a page with a trained model; it is then called on that model and
    on the answers of the sliders, in the order of the sliders: one value
    per selected feature. *)
Theorem predictor_called_on_slider_answers (env : Env) (model : Model)
    (feature_values : list Q) :
  CallMakePrediction model feature_values ∈ trace (main env) →
  ∃ pre df selected r_squared rmse clean_df,
    select_features env = (pre, Ok (Some (df, selected))) ∧
    train_model env df selected =
      Ok (Some model, r_squared, rmse, Some clean_df) ∧
    empty clean_df = false ∧
    button env "Predict BTC Price" = Ok true ∧
    feature_values =
      omap (slider_answer env) (filter is_slider (trace (main env))) ∧
    length feature_values = length selected.
Proof.
  intros Hcall.
  assert (CallMakePrediction model feature_values
            ∈ filter is_utils_call (trace (main env)))
    as Hin by (by apply list_elem_of_filter).
  destruct (utils_calls_main env)
    as [[Hcalls _] | (pre & df & sel & Hsel & Hcalls)];
    rewrite Hcalls in Hin.
  { apply list_elem_of_singleton in Hin. done. }
  destruct (utils_calls_train_and_render env df sel)
    as [Htr | (m & r2 & rmse & clean & ts & v & Htrain & Hempty & Hloop &
               Hbutton & Htr)];
    rewrite Htr in Hin;
    repeat (apply elem_of_cons in Hin as [Hin|Hin]; [simplify_eq|]);
    try (by apply elem_of_nil in Hin).
  exists pre, df, sel, r2, rmse, clean. repeat split; try done.
  - rewrite (sliders_of_main _ _ _ _ _ _ _ _ Hsel Htrain Hempty), Hloop.
    by apply slider_loop_answers in Hloop.
  - by apply slider_loop_inv in Hloop as (_ & _ & ->).
Qed.

(** The sliders are moved to their maxima: the predictor is called on
    the maxima. *)
Lemma predictor_called_on_slider_answers_witness :
  ∃ pre df selected r_squared rmse clean_df,
    select_features Sample.moved = (pre, Ok (Some (df, selected))) ∧
    train_model Sample.moved df selected =
      Ok (Some (Sample.model Sample.selected), r_squared, rmse,
          Some clean_df) ∧
    empty clean_df = false ∧
    button Sample.moved "Predict BTC Price" = Ok true ∧
    [2900; 5600; 9 # 2]%Q =
      omap (slider_answer Sample.moved)
        (filter is_slider (trace (main Sample.moved))) ∧
    length [2900; 5600; 9 # 2]%Q = length selected.
Proof.
  apply (predictor_called_on_slider_answers Sample.moved).
  apply (list_elem_of_lookup_2 _ 16). reflexivity.
Defined.

(** ** The Predict button *)

(** The model information raises nothing but [TypeError] and
    [ValueError], which the handler catches. *)
Lemma model_information_caught (model : Model)
    (r_squared rmse : option pyfloat) (selected_features : list string) :
  outcome (try_except
             (model_information model r_squared rmse selected_features)
             except_handler) = Ok () ∧
  successes (trace (try_except
                      (model_information model r_squared rmse
                         selected_features)
                      except_handler)) = [].
Proof.
  unfold model_information, pd_DataFrame.
  destruct r_squared, rmse; try done; by case_bool_decide.
Qed.

Lemma try_except_prefix {A : Type} (t : list event) (m : page A)
    (h : exn → page A) :
  try_except (t ++ trace m, outcome m) h =
  (t ++ trace (try_except m h), outcome (try_except m h)).
Proof.
  destruct m as [t' [a|e]]; [done|]. cbn.
  destruct (exn_is_Exception e); [|done].
  destruct (h e). by rewrite trace_pair, outcome_pair, app_assoc.
Qed.

(** The page once the model is trained and the sliders are rendered. *)
Lemma main_trained (env : Env) (pre : list event) (df : DataFrame)
    (selected : list string) (model : Model) (r_squared rmse : option pyfloat)
    (clean_df : DataFrame) (ts : list event) (feature_values : list Q) :
  select_features env = (pre, Ok (Some (df, selected))) →
  train_model env df selected =
    Ok (Some model, r_squared, rmse, Some clean_df) →
  empty clean_df = false →
  slider_loop env clean_df selected [] = (ts, Ok feature_values) →
  main env =
    (pre ++
     [ CallTrainModel df selected;
       Display (Subheader [Lit "Make a Prediction"]) ] ++
     ts ++
     trace (try_except
              (predict env model feature_values;;
               model_information model r_squared rmse selected)
              except_handler),
     outcome (try_except
                (predict env model feature_values;;
                 model_information model r_squared rmse selected)
                except_handler)).
Proof.
  intros Hsel Htrain Hempty Hloop.
  rewrite (main_after_selection _ _ _ _ Hsel).
  rewrite (train_and_render_trained _ _ _ _ _ _ _ _ _ Htrain Hempty Hloop).
  rewrite !app_comm_cons, try_except_prefix, trace_pair, outcome_pair.
  by rewrite <- !app_comm_cons.
Qed.

(** X4. When the button is pressed and the predictor returns a price,
    the price is shown once, in a success box right after the call of the
    predictor, formatted with two decimals and thousands separators; the
    page goes on to the model information and returns normally. *)
Theorem prediction_shown (env : Env) (pre : list event)
    (btc_macro_df : DataFrame) (selected_features : list string)
    (model : Model) (r_squared rmse : option pyfloat) (clean_df : DataFrame)
    (ts : list event) (feature_values : list Q) (prediction : Q) :
  select_features env = (pre, Ok (Some (btc_macro_df, selected_features))) →
  train_model env btc_macro_df selected_features =
    Ok (Some model, r_squared, rmse, Some clean_df) →
  empty clean_df = false →
  slider_loop env clean_df selected_features [] = (ts, Ok feature_values) →
  button env "Predict BTC Price" = Ok true →
  make_prediction env model feature_values = Ok (Some prediction) →
  main env =
    (pre ++
     [ CallTrainModel btc_macro_df selected_features;
       Display (Subheader [Lit "Make a Prediction"]) ] ++
     ts ++
     [ CallButton "Predict BTC Price";
       CallMakePrediction model feature_values;
       Display (Success [Lit "Estimated BTC price: $";
                         Fmt ",.2f" (Fin prediction)]) ] ++
     trace (try_except
              (model_information model r_squared rmse selected_features)
              except_handler),
     Ok ()) ∧
  successes (trace (main env)) =
    [[Lit "Estimated BTC price: $"; Fmt ",.2f" (Fin prediction)]].
Proof.
  intros Hsel Htrain Hempty Hloop Hbutton Hsome.
  destruct (sliders_before_try _ _ _ _ Hsel) as (_ & _ & Hpre_s & _).
  destruct (model_information_caught model r_squared rmse selected_features)
    as [Hinfo Hinfo_s].
  pose proof (slider_loop_trace env clean_df selected_features []) as Hts.
  rewrite Hloop, trace_pair in Hts.
  apply only_sliders in Hts as (_ & _ & Hts_s).
  rewrite (main_trained _ _ _ _ _ _ _ _ _ _ Hsel Htrain Hempty Hloop).
  assert (predict env model feature_values =
    ([ CallButton "Predict BTC Price";
       CallMakePrediction model feature_values;
       Display (Success [Lit "Estimated BTC price: $";
                         Fmt ",.2f" (Fin prediction)]) ],
     Ok ())) as ->.
  { unfold predict. by rewrite Hbutton, bind_call_ok, Hsome, bind_call_ok. }
  rewrite bind_ok, try_except_prefix, Hinfo, !trace_pair.
  split; [done|].
  rewrite !successes_app, Hpre_s, Hts_s, Hinfo_s. done.
Qed.

Lemma prediction_shown_witness :
  main Sample.env =
    (trace (select_features Sample.env) ++
     [ CallTrainModel Sample.btc_macro_df Sample.selected;
       Display (Subheader [Lit "Make a Prediction"]) ] ++
     trace (slider_loop Sample.env Sample.clean_df Sample.selected []) ++
     [ CallButton "Predict BTC Price";
       CallMakePrediction (Sample.model Sample.selected)
         [1500; 3000; 5 # 2]%Q;
       Display (Success [Lit "Estimated BTC price: $";
                         Fmt ",.2f" (Fin (-1000 + ((5 # 2) * 1500 + ((5 # 2) * 3000 + ((5 # 2) * (5 # 2) + 0)))))]) ] ++
     trace (try_except
              (model_information (Sample.model Sample.selected)
                 (Some (Fin (872 # 1000))) (Some (Fin 7930)) Sample.selected)
              except_handler),
     Ok ()) ∧
  successes (trace (main Sample.env)) =
    [[Lit "Estimated BTC price: $";
      Fmt ",.2f" (Fin (-1000 + ((5 # 2) * 1500 + ((5 # 2) * 3000 + ((5 # 2) * (5 # 2) + 0)))))]].
Proof.
  apply (prediction_shown Sample.env (trace (select_features Sample.env))
           Sample.btc_macro_df Sample.selected
           (Sample.model Sample.selected)
           (Some (Fin (872 # 1000))) (Some (Fin 7930)) Sample.clean_df).
  - reflexivity.
  - reflexivity.
  - reflexivity.
  - reflexivity.
  - reflexivity.
  - reflexivity.
Defined.

(** X5. While the button is not pressed, the predictor is not called and
    no price is shown: the page goes from the button straight on to the
    model information and returns normally. *)
Theorem no_prediction_without_button (env : Env) (pre : list event)
    (btc_macro_df : DataFrame) (selected_features : list string)
    (model : Model) (r_squared rmse : option pyfloat) (clean_df : DataFrame)
    (ts : list event) (feature_values : list Q) :
  select_features env = (pre, Ok (Some (btc_macro_df, selected_features))) →
  train_model env btc_macro_df selected_features =
    Ok (Some model, r_squared, rmse, Some clean_df) →
  empty clean_df = false →
  slider_loop env clean_df selected_features [] = (ts, Ok feature_values) →
  button env "Predict BTC Price" = Ok false →
  main env =
    (pre ++
     [ CallTrainModel btc_macro_df selected_features;
       Display (Subheader [Lit "Make a Prediction"]) ] ++
     ts ++
     [ CallButton "Predict BTC Price" ] ++
     trace (try_except
              (model_information model r_squared rmse selected_features)
              except_handler),
     Ok ()) ∧
  filter is_utils_call (trace (main env)) =
    [CallLoadData; CallTrainModel btc_macro_df selected_features] ∧
  successes (trace (main env)) = [].
Proof.
  intros Hsel Htrain Hempty Hloop Hbutton.
  destruct (sliders_before_try _ _ _ _ Hsel) as (_ & _ & Hpre_s & _).
  destruct (model_information_caught model r_squared rmse selected_features)
    as [Hinfo Hinfo_s].
  pose proof (slider_loop_trace env clean_df selected_features []) as Hts.
  rewrite Hloop, trace_pair in Hts.
  apply only_sliders in Hts as (_ & _ & Hts_s).
  assert (predict env model feature_values =
            ([CallButton "Predict BTC Price"], Ok ())) as Hpredict.
  { unfold predict. by rewrite Hbutton, bind_call_ok. }
  split; [|split].
  - rewrite (main_trained _ _ _ _ _ _ _ _ _ _ Hsel Htrain Hempty Hloop).
    by rewrite Hpredict, bind_ok, try_except_prefix, Hinfo, !trace_pair.
  - destruct (utils_calls_main env)
      as [[_ Hnot] | (pre' & df' & sel' & Hsel' & ->)];
      [by destruct (Hnot _ _ _ Hsel)|].
    rewrite Hsel in Hsel'. injection Hsel' as _ <- <-.
    destruct (utils_calls_train_and_render env btc_macro_df selected_features)
      as [-> | (? & ? & ? & ? & ? & ? & _ & _ & _ & Hpressed & _)];
      [done|congruence].
  - rewrite (main_trained _ _ _ _ _ _ _ _ _ _ Hsel Htrain Hempty Hloop).
    rewrite Hpredict, bind_ok, try_except_prefix, !trace_pair.
    rewrite !successes_app, Hpre_s, Hts_s, Hinfo_s. done.
Qed.

Lemma no_prediction_without_button_witness :
  main Sample.idle =
    (trace (select_features Sample.idle) ++
     [ CallTrainModel Sample.btc_macro_df Sample.selected;
       Display (Subheader [Lit "Make a Prediction"]) ] ++
     trace (slider_loop Sample.idle Sample.clean_df Sample.selected []) ++
     [ CallButton "Predict BTC Price" ] ++
     trace (try_except
              (model_information (Sample.model Sample.selected)
                 (Some (Fin (872 # 1000))) (Some (Fin 7930)) Sample.selected)
              except_handler),
     Ok ()) ∧
  filter is_utils_call (trace (main Sample.idle)) =
    [CallLoadData; CallTrainModel Sample.btc_macro_df Sample.selected] ∧
  successes (trace (main Sample.idle)) = [].
Proof.
  apply (no_prediction_without_button Sample.idle
           (trace (select_features Sample.idle))
           Sample.btc_macro_df Sample.selected
           (Sample.model Sample.selected)
           (Some (Fin (872 # 1000))) (Some (Fin 7930)) Sample.clean_df
           (trace (slider_loop Sample.idle Sample.clean_df Sample.selected []))
           [1500; 3000; 5 # 2]%Q).
  - reflexivity.
  - reflexivity.
  - reflexivity.
  - reflexivity.
  - reflexivity.
Defined.

(** ** A column missing from the cleaned dataframe *)

Lemma getitem_missing (float_error : string) (df : DataFrame)
    (name : string) :
  name ∉ columns df → getitem float_error df name = Raise (KeyError name).
Proof.
  intros Hmissing. unfold getitem, labelled.
  assert (filter (λ c : label * list float, c.1 = StrLabel name) (df_data df)
          = []) as ->; [|done].
  unfold columns, labels in Hmissing.
  induction (df_data df) as [|[l col] data IH]; [done|].
  rewrite filter_cons. destruct (decide ((l, col).1 = StrLabel name))
    as [Heq|Hne].
  - simpl in Heq. subst l. exfalso. apply Hmissing. cbn. by left.
  - apply IH. intros Hin. apply Hmissing. cbn.
    destruct l; [by right|done].
Qed.

Lemma slider_loop_missing (env : Env) (clean_df : DataFrame)
    (rendered : list string) (feature : string) (rest : list string)
    (acc : list Q) (ts : list event) (vals : list Q) (e : exn) :
  slider_loop env clean_df rendered acc = (ts, Ok vals) →
  getitem (float_error env) clean_df feature = Raise e →
  slider_loop env clean_df (rendered ++ feature :: rest) acc = (ts, Raise e).
Proof.
  intros Hloop Hmissing. revert acc ts Hloop.
  induction rendered as [|feat rendered IH]; intros acc ts Hloop.
  - inversion Hloop. cbn [app slider_loop]. by rewrite Hmissing.
  - cbn [app slider_loop] in *.
    destruct (getitem (float_error env) clean_df feat) as [col|e']; [|done].
    rewrite !bind_lift_ok in *.
    destruct (slider env feat _ _ _ _ _) as [feature_val|e']; [|done].
    rewrite bind_call_ok in *.
    destruct (slider_loop env clean_df rendered _) as [t' r'] eqn:Hrest.
    rewrite trace_pair, outcome_pair in Hloop. injection Hloop as <- ->.
    by rewrite (IH _ _ Hrest).
Qed.

(** The name of a candidate feature is written between single quotes. *)
Lemma repr_macro_feature (feat : string) :
  feat ∈ macro_features → repr feat = "'" +:+ feat +:+ "'".
Proof.
  intros Hfeat.
  repeat (apply elem_of_cons in Hfeat as [->|Hfeat]; [by vm_compute|]).
  by apply elem_of_nil in Hfeat.
Qed.

(** X6. When the cleaned dataframe lacks the column of a selected
    feature, and the selected features before it have their column and a
    slider that returns, the page calls the sliders of those features,
    then catches the [KeyError] of the lookup: the first error box reads
    [An error occurred: ] followed by the name of the feature between
    single quotes, the second holds the traceback, and the page returns
    without the button and the model information. *)
Theorem missing_column_reported (env : Env) (pre : list event)
    (btc_macro_df : DataFrame) (selected_features : list string)
    (model : Model) (r_squared rmse : option pyfloat) (clean_df : DataFrame)
    (rendered : list string) (feature : string) (rest : list string) :
  select_features env = (pre, Ok (Some (btc_macro_df, selected_features))) →
  train_model env btc_macro_df selected_features =
    Ok (Some model, r_squared, rmse, Some clean_df) →
  empty clean_df = false →
  selected_features = rendered ++ feature :: rest →
  (∀ feat, feat ∈ rendered →
     ∃ ev, slider_of clean_df feat ev ∧ is_Some (slider_answer env ev)) →
  feature ∉ columns clean_df →
  ∃ ts,
    Forall2 (λ ev feat, slider_of clean_df feat ev) ts rendered ∧
    main env =
      (pre ++
       [ CallTrainModel btc_macro_df selected_features;
         Display (Subheader [Lit "Make a Prediction"]) ] ++
       ts ++
       [ Display (Error [Lit "An error occurred: "; Str (KeyError feature)]);
         Display (Error [FormatExc (KeyError feature)]) ],
       Ok ()) ∧
    exn_str (KeyError feature) = "'" +:+ feature +:+ "'".
Proof.
  intros Hsel Htrain Hempty Hfeatures Hrendered Hmissing.
  destruct (slider_loop_completes env clean_df rendered [] Hrendered)
    as (ts & vals & Hloop).
  exists ts. split; [by apply slider_loop_inv in Hloop as (? & _)|].
  split.
  - apply (getitem_missing (float_error env)) in Hmissing.
    pose proof (slider_loop_missing _ _ _ _ rest _ _ _ _ Hloop Hmissing)
      as Hraise.
    rewrite <- Hfeatures in Hraise.
    rewrite (main_after_selection _ _ _ _ Hsel).
    rewrite (train_and_render_sliders_raise _ _ _ _ _ _ _ _ _
               Htrain Hempty Hraise).
    by cbn.
  - apply repr_macro_feature.
    apply select_features_inv in Hsel as (_ & _ & _ & Hsub & _).
    assert (feature ∈ available_features btc_macro_df) as Hin.
    { eapply elem_of_sublist; [|exact Hsub].
      rewrite Hfeatures, elem_of_app. right. by left. }
    unfold available_features in Hin.
    by apply list_elem_of_filter in Hin as [_ ?].
Qed.

Lemma missing_column_reported_witness :
  ∃ ts,
    Forall2 (λ ev feat, slider_of Sample.narrow_df feat ev) ts
      ["gold_price_usd"] ∧
    main Sample.narrowed =
      (trace (select_features Sample.narrowed) ++
       [ CallTrainModel Sample.btc_macro_df Sample.selected;
         Display (Subheader [Lit "Make a Prediction"]) ] ++
       ts ++
       [ Display (Error [Lit "An error occurred: "; Str (KeyError "SP500")]);
         Display (Error [FormatExc (KeyError "SP500")]) ],
       Ok ()) ∧
    exn_str (KeyError "SP500") = "'" +:+ "SP500" +:+ "'".
Proof.
  apply (missing_column_reported Sample.narrowed
           (trace (select_features Sample.narrowed))
           Sample.btc_macro_df Sample.selected
           (Sample.model Sample.selected)
           (Some (Fin (872 # 1000))) (Some (Fin 7930)) Sample.narrow_df
           ["gold_price_usd"] "SP500" ["fed_funds_rate"]).
  - reflexivity.
  - reflexivity.
  - reflexivity.
  - reflexivity.
  - intros feat ->%list_elem_of_singleton.
    eexists. split; [eexists; split; reflexivity|].
    by eexists.
  - apply (bool_decide_unpack _). by vm_compute.
Defined.

(** What the handler shows for the missing column of the sample. *)
Example missing_column_message :
  exn_str (KeyError "SP500") = "'SP500'" ∧
  errors (trace (main Sample.narrowed)) =
    [ [Lit "An error occurred: "; Str (KeyError "SP500")];
      [FormatExc (KeyError "SP500")] ].
Proof. by vm_compute. Qed.

(** ** The keys of the widgets *)

Lemma keys_checkboxes (features : list string) :
  omap widget_key (checkbox_call <$> features) =
  (λ feat, "feature_" +:+ feat) <$> features.
Proof. induction features as [|f l IH]; [done|]. simpl. by f_equal. Qed.

Lemma keys_select_features (env : Env) :
  ∃ l, l `sublist_of` macro_features ∧
       omap widget_key (trace (select_features env)) =
       (λ feat, "feature_" +:+ feat) <$> l.
Proof.
  destruct (select_features env) as [pre [[[df sel]|]|e]] eqn:Hsel;
    rewrite trace_pair.
  - apply select_features_inv in Hsel as (_ & _ & _ & _ & ->).
    exists (available_features df). split; [apply sublist_filter|].
    by rewrite omap_app, keys_checkboxes.
  - apply select_features_none_inv in Hsel
      as [-> | [(df & joined & _ & _ & ->) | (df & _ & ->)]].
    + exists []. split; [apply sublist_nil_l|done].
    + exists []. split; [apply sublist_nil_l|done].
    + exists (available_features df). split; [apply sublist_filter|].
      rewrite !omap_app, keys_checkboxes. cbn. by rewrite app_nil_r.
  - apply select_features_raise_inv in Hsel
      as [[_ ->] | [(df & _ & _ & ->) | (df & t & _ & Hloop & ->)]].
    + exists []. split; [apply sublist_nil_l|done].
    + exists []. split; [apply sublist_nil_l|done].
    + destruct (checkbox_loop_trace env (available_features df) [])
        as [n Hn].
      rewrite Hloop, trace_pair in Hn. subst t.
      exists (take n (available_features df)). split.
      * etrans; [apply sublist_take|apply sublist_filter].
      * by rewrite omap_app, keys_checkboxes.
Qed.

Lemma keys_slider_loop (env : Env) (clean_df : DataFrame)
    (features : list string) (acc : list Q) :
  ∃ n, omap widget_key (trace (slider_loop env clean_df features acc)) =
       (λ feat, "slider_" +:+ feat) <$> take n features.
Proof.
  revert acc. induction features as [|feature rest IH]; intros acc.
  - by exists 0.
  - cbn [slider_loop].
    destruct (getitem (float_error env) clean_df feature) as [col|e]; [|by exists 0].
    rewrite !bind_lift_ok.
    destruct (slider env feature _ _ _ _ _) as [feature_val|e].
    + rewrite bind_call_ok, trace_pair.
      destruct (IH (acc ++ [feature_val])) as [n Hn].
      exists (S n). cbn [take fmap list_fmap omap list_omap widget_key].
      by f_equal.
    + by exists 1.
Qed.

Lemma keys_after_sliders (env : Env) (model : Model)
    (r_squared rmse : option pyfloat) (selected_features : list string)
    (feature_values : list Q) :
  omap widget_key
    (trace (try_except
              (predict env model feature_values;;
               model_information model r_squared rmse selected_features)
              except_handler)) = [].
Proof.
  unfold predict.
  destruct (button env _) as [[]|e];
    [destruct (make_prediction env model feature_values) as [[p|]|e]|..];
    rewrite ?bind_call_ok, ?bind_call_raise; cbn [mret page_ret show];
    rewrite ?bind_ok, ?bind_raise, ?try_except_prefix, ?trace_pair;
    rewrite ?omap_app;
    try (unfold model_information, pd_DataFrame;
         destruct r_squared, rmse; try done; by case_bool_decide);
    cbn; by destruct (exn_is_Exception e).
Qed.

Lemma keys_try (env : Env) (df : DataFrame) (selected : list string) :
  ∃ n, omap widget_key
         (trace (try_except (train_and_render env df selected)
                            except_handler)) =
       (λ feat, "slider_" +:+ feat) <$> take n selected.
Proof.
  destruct (train_and_render_cases env df selected)
    as [[e Htrain] | [(model & r2 & rmse & clean & Htrain & Hfail) |
        (model & r2 & rmse & clean & ts & Htrain & Hempty & Hloop)]].
  - exists 0. unfold train_and_render. rewrite Htrain, bind_call_raise.
    cbn. by destruct (exn_is_Exception e).
  - exists 0.
    by rewrite (train_and_render_failed _ _ _ _ _ _ _ Htrain Hfail).
  - destruct (keys_slider_loop env clean selected []) as [n Hn].
    exists n. destruct Hloop as [[e Hloop] | [vals Hloop]];
      rewrite Hloop, trace_pair in Hn.
    + rewrite (train_and_render_sliders_raise _ _ _ _ _ _ _ _ _
                 Htrain Hempty Hloop).
      rewrite trace_try_except, trace_pair, outcome_pair, omap_app.
      cbn [omap list_omap widget_key]. rewrite Hn.
      destruct (exn_is_Exception e); cbn; by rewrite app_nil_r.
    + rewrite (train_and_render_trained _ _ _ _ _ _ _ _ _
                 Htrain Hempty Hloop).
      rewrite !app_comm_cons, try_except_prefix, trace_pair, omap_app.
      rewrite keys_after_sliders, app_nil_r.
      cbn [omap list_omap widget_key]. done.
Qed.

#[local] Instance feature_key_inj : Inj (=) (=) (λ feat, "feature_" +:+ feat).
Proof. intros a b Hab. cbn in Hab. by simplify_eq. Qed.

#[local] Instance slider_key_inj : Inj (=) (=) (λ feat, "slider_" +:+ feat).
Proof. intros a b Hab. cbn in Hab. by simplify_eq. Qed.

(** X7. In every run, whatever the collaborators answer, the keys under
    which the page registers its widgets are pairwise distinct: at most
    one checkbox [feature_<name>] and one slider [slider_<name>] per
    feature. *)
Theorem widget_keys_distinct (env : Env) :
  NoDup (omap widget_key (trace (main env))).
Proof.
  unfold main. rewrite trace_bind, omap_app.
  destruct (keys_select_features env) as (l & Hl & ->).
  assert (NoDup l) as Hnodup
    by (eapply sublist_NoDup; [apply NoDup_macro_features|done]).
  assert (∃ l', NoDup l' ∧
            omap widget_key
              match outcome (select_features env) with
              | Ok (Some (btc_macro_df, selected_features)) =>
                  trace (try_except
                           (train_and_render env btc_macro_df
                              selected_features)
                           except_handler)
              | Ok None => trace (mret () : page ())
              | Raise _ => []
              end = (λ feat, "slider_" +:+ feat) <$> l')
    as (l' & Hnodup' & Hkeys).
  { destruct (select_features env) as [pre [[[df sel]|]|e]] eqn:Hsel;
      rewrite outcome_pair; [|by exists []; split; [constructor|]..].
    destruct (keys_try env df sel) as [n ->].
    exists (take n sel). split; [|done].
    destruct (sliders_before_try _ _ _ _ Hsel) as (_ & _ & _ & Hsel_nodup).
    eapply sublist_NoDup; [exact Hsel_nodup|apply sublist_take]. }
  assert (match outcome (select_features env) with
          | Ok a =>
              trace match a with
                    | Some (btc_macro_df, selected_features) =>
                        try_except
                          (train_and_render env btc_macro_df
                             selected_features)
                          except_handler
                    | None => mret ()
                    end
          | Raise _ => []
          end =
          match outcome (select_features env) with
          | Ok (Some (btc_macro_df, selected_features)) =>
              trace (try_except
                       (train_and_render env btc_macro_df selected_features)
                       except_handler)
          | Ok None => trace (mret () : page ())
          | Raise _ => []
          end) as ->.
  { by destruct (outcome (select_features env)) as [[[]|]|]. }
  rewrite Hkeys. apply NoDup_app. split; [|split].
  - by apply (NoDup_fmap_2 _).
  - intros key [a [-> _]]%list_elem_of_fmap [b [Hab _]]%list_elem_of_fmap.
    cbn in Hab. done.
  - by apply (NoDup_fmap_2 _).
Qed.

(** ** How a run ends *)

Lemma ends_well_raise (t : list event) (e : exn) :
  ends_well (try_except ((t, Raise e) : page unit) except_handler).
Proof.
  unfold ends_well. cbn. destruct (exn_is_Exception e) eqn:He; cbn; [|done].
  left. rewrite errors_app. cbn. by destruct (errors t).
Qed.

Lemma ends_well_prefix (t : list event) (p : page unit) :
  errors t = [] → ends_well p → ends_well (t ++ trace p, outcome p).
Proof.
  unfold ends_well. rewrite trace_pair, outcome_pair. intros Ht.
  destruct (outcome p); [|done].
  rewrite errors_app, Ht. cbn [app].
  intros [Herr | [Herr Hlast]]; [by left|right].
  split; [done|]. rewrite last_app, Hlast. done.
Qed.

Lemma errors_predict (env : Env) (model : Model) (feature_values : list Q) :
  errors (trace (predict env model feature_values)) = [].
Proof.
  unfold predict. destruct (button env _) as [[]|e]; [|done..].
  rewrite bind_call_ok.
  by destruct (make_prediction env model feature_values) as [[p|]|e].
Qed.

Lemma ends_well_after_sliders (env : Env) (model : Model)
    (r_squared rmse : option pyfloat) (selected_features : list string)
    (feature_values : list Q) :
  ends_well
    (try_except
       (predict env model feature_values;;
        model_information model r_squared rmse selected_features)
       except_handler).
Proof.
  assert (ends_well
            (try_except
               (model_information model r_squared rmse selected_features)
               except_handler)) as Hinfo.
  { unfold ends_well, model_information, pd_DataFrame.
    destruct r_squared, rmse; try (by left); case_bool_decide;
      [by right|by left]. }
  pose proof (errors_predict env model feature_values) as Hpredict.
  destruct (predict env model feature_values) as [t [[]|e]].
  - rewrite bind_ok, try_except_prefix. by apply ends_well_prefix.
  - rewrite bind_raise. apply ends_well_raise.
Qed.

Lemma ends_well_try (env : Env) (df : DataFrame) (selected : list string) :
  ends_well (try_except (train_and_render env df selected) except_handler).
Proof.
  destruct (train_and_render_cases env df selected)
    as [[e Htrain] | [(model & r2 & rmse & clean & Htrain & Hfail) |
        (model & r2 & rmse & clean & ts & Htrain & Hempty & Hloop)]].
  - unfold train_and_render. rewrite Htrain, bind_call_raise.
    apply ends_well_raise.
  - rewrite (train_and_render_failed _ _ _ _ _ _ _ Htrain Hfail). by left.
  - pose proof (slider_loop_trace env clean selected []) as Hts.
    destruct Hloop as [[e Hloop] | [vals Hloop]];
      rewrite Hloop, trace_pair in Hts;
      apply only_sliders in Hts as (_ & Hts & _).
    + rewrite (train_and_render_sliders_raise _ _ _ _ _ _ _ _ _
                 Htrain Hempty Hloop).
      apply ends_well_raise.
    + rewrite (train_and_render_trained _ _ _ _ _ _ _ _ _
                 Htrain Hempty Hloop).
      rewrite !app_comm_cons, try_except_prefix.
      apply ends_well_prefix; [by cbn|apply ends_well_after_sliders].
Qed.

(** X8. However the collaborators answer, a run of the page ends in one
    of three ways.  It returns normally with an error box on the page; or
    it returns normally with no error box and the whole page rendered,
    the disclaimer last; or it raises, and then the exception was raised
    before the [try] or does not derive from [Exception].  The page never
    stops short without an error on it. *)
Theorem main_never_silent (env : Env) :
  match outcome (main env) with
  | Ok _ =>
      errors (trace (main env)) ≠ [] ∨
      errors (trace (main env)) = [] ∧
      last (trace (main env)) = Some disclaimer
  | Raise e =>
      (∃ pre, select_features env = (pre, Raise e)) ∨
      exn_is_Exception e = false
  end.
Proof.
  destruct (select_features env) as [pre [[[df sel]|]|e]] eqn:Hsel.
  - rewrite (main_after_selection _ _ _ _ Hsel).
    destruct (sliders_before_try _ _ _ _ Hsel) as (_ & Hpre & _).
    pose proof (ends_well_prefix pre _ Hpre (ends_well_try env df sel))
      as Hends.
    unfold ends_well in Hends. rewrite trace_pair, outcome_pair in *.
    destruct (outcome (try_except _ _)); [done|by right].
  - unfold main. rewrite Hsel, bind_ok. cbn [mret page_ret].
    rewrite !trace_pair, !outcome_pair, app_nil_r. left.
    apply select_features_none_inv in Hsel
      as [-> | [(df & joined & _ & _ & ->) | (df & _ & ->)]]; [done..|].
    rewrite !errors_app, errors_checkboxes. done.
  - unfold main. rewrite Hsel, bind_raise, outcome_pair. left. by exists pre.
Qed.

(** ** Where a price can come from *)

Lemma successes_select_features (env : Env) :
  successes (trace (select_features env)) = [].
Proof.
  destruct (select_features env) as [pre [[[df sel]|]|e]] eqn:Hsel;
    rewrite trace_pair.
  - by destruct (sliders_before_try _ _ _ _ Hsel) as (_ & _ & ? & _).
  - apply select_features_none_inv in Hsel
      as [-> | [(df & joined & _ & _ & ->) | (df & _ & ->)]]; [done..|].
    by rewrite !successes_app, successes_checkboxes.
  - apply select_features_raise_inv in Hsel
      as [[_ ->] | [(df & _ & _ & ->) | (df & t & _ & Hloop & ->)]];
      [done..|].
    destruct (checkbox_loop_trace env (available_features df) []) as [n Hn].
    rewrite Hloop, trace_pair in Hn. subst t.
    by rewrite successes_app, successes_checkboxes.
Qed.

Lemma successes_try_except (m : page unit) :
  successes (trace (try_except m except_handler)) = successes (trace m).
Proof.
  rewrite trace_try_except, successes_app.
  destruct (outcome m) as [|e]; [by rewrite app_nil_r|].
  destruct (exn_is_Exception e); by rewrite app_nil_r.
Qed.

Lemma successes_model_information (model : Model)
    (r_squared rmse : option pyfloat) (selected_features : list string) :
  successes
    (trace (model_information model r_squared rmse selected_features)) = [].
Proof.
  unfold model_information, pd_DataFrame.
  destruct r_squared, rmse; try done; by case_bool_decide.
Qed.

Lemma successes_predict (env : Env) (model : Model)
    (feature_values : list Q) :
  successes (trace (predict env model feature_values)) = [] ∨
  ∃ p, button env "Predict BTC Price" = Ok true ∧
       make_prediction env model feature_values = Ok (Some p) ∧
       successes (trace (predict env model feature_values)) =
         [[Lit "Estimated BTC price: $"; Fmt ",.2f" (Fin p)]].
Proof.
  unfold predict. destruct (button env _) as [[]|e]; [|by left..].
  rewrite bind_call_ok.
  destruct (make_prediction env model feature_values) as [[p|]|e];
    [|by left..].
  right. by exists p.
Qed.

Lemma successes_train_and_render (env : Env) (df : DataFrame)
    (selected : list string) :
  successes (trace (train_and_render env df selected)) = [] ∨
  ∃ model r_squared rmse clean_df ts feature_values p,
    train_model env df selected =
      Ok (Some model, r_squared, rmse, Some clean_df) ∧
    empty clean_df = false ∧
    slider_loop env clean_df selected [] = (ts, Ok feature_values) ∧
    button env "Predict BTC Price" = Ok true ∧
    make_prediction env model feature_values = Ok (Some p) ∧
    successes (trace (train_and_render env df selected)) =
      [[Lit "Estimated BTC price: $"; Fmt ",.2f" (Fin p)]].
Proof.
  destruct (train_and_render_cases env df selected)
    as [[e Htrain] | [(model & r2 & rmse & clean & Htrain & Hfail) |
        (model & r2 & rmse & clean & ts & Htrain & Hempty & Hloop)]].
  - left. unfold train_and_render. by rewrite Htrain.
  - left. by rewrite (train_and_render_failed _ _ _ _ _ _ _ Htrain Hfail).
  - pose proof (slider_loop_trace env clean selected []) as Hts.
    destruct Hloop as [[e Hloop] | [vals Hloop]];
      rewrite Hloop, trace_pair in Hts;
      apply only_sliders in Hts as (_ & _ & Hts).
    + left.
      by rewrite (train_and_render_sliders_raise _ _ _ _ _ _ _ _ _
                    Htrain Hempty Hloop), trace_pair.
    + rewrite (train_and_render_trained _ _ _ _ _ _ _ _ _
                 Htrain Hempty Hloop), trace_pair.
      cbn [successes]. rewrite successes_app, Hts, trace_bind, successes_app.
      assert (successes
                match outcome (predict env model vals) with
                | Ok _ => trace (model_information model r2 rmse selected)
                | Raise _ => []
                end = []) as ->.
      { destruct (outcome (predict env model vals));
          [apply successes_model_information|done]. }
      destruct (successes_predict env model vals)
        as [-> | (p & Hbutton & Hsome & ->)]; [by left|].
      right. by exists model, r2, rmse, clean, ts, vals, p.
Qed.

(** X9. In every run, the page shows no price but the one the predictor
    returned: a success box is on the page only if the model was trained,
    the sliders were rendered, the button was pressed and the predictor
    returned a value for the sliders' values; the box then holds that
    value, and it is the only success box. *)
Theorem price_only_from_predictor (env : Env) (body : message) :
  body ∈ successes (trace (main env)) →
  ∃ pre df selected model r_squared rmse clean_df ts feature_values p,
    select_features env = (pre, Ok (Some (df, selected))) ∧
    train_model env df selected =
      Ok (Some model, r_squared, rmse, Some clean_df) ∧
    slider_loop env clean_df selected [] = (ts, Ok feature_values) ∧
    button env "Predict BTC Price" = Ok true ∧
    make_prediction env model feature_values = Ok (Some p) ∧
    body = [Lit "Estimated BTC price: $"; Fmt ",.2f" (Fin p)] ∧
    successes (trace (main env)) = [body].
Proof.
  pose proof (successes_select_features env) as Hpre.
  unfold main. rewrite trace_bind, successes_app, Hpre. cbn [app].
  destruct (select_features env) as [pre [[[df sel]|]|e]] eqn:Hsel;
    rewrite outcome_pair; [|by intros ?%elem_of_nil..].
  rewrite successes_try_except.
  destruct (successes_train_and_render env df sel)
    as [-> | (model & r2 & rmse & clean & ts & vals & p & Htrain & _ &
              Hloop & Hbutton & Hsome & ->)];
    [by intros ?%elem_of_nil|].
  intros ->%list_elem_of_singleton.
  by exists pre, df, sel, model, r2, rmse, clean, ts, vals, p.
Qed.

Lemma price_only_from_predictor_witness :
  ∃ pre df selected model r_squared rmse clean_df ts feature_values p,
    select_features Sample.env = (pre, Ok (Some (df, selected))) ∧
    train_model Sample.env df selected =
      Ok (Some model, r_squared, rmse, Some clean_df) ∧
    slider_loop Sample.env clean_df selected [] = (ts, Ok feature_values) ∧
    button Sample.env "Predict BTC Price" = Ok true ∧
    make_prediction Sample.env model feature_values = Ok (Some p) ∧
    [Lit "Estimated BTC price: $";
     Fmt ",.2f" (Fin (-1000 + ((5 # 2) * 1500 + ((5 # 2) * 3000 + ((5 # 2) * (5 # 2) + 0)))))] =
      [Lit "Estimated BTC price: $"; Fmt ",.2f" (Fin p)] ∧
    successes (trace (main Sample.env)) =
      [[Lit "Estimated BTC price: $";
        Fmt ",.2f" (Fin (-1000 + ((5 # 2) * 1500 + ((5 # 2) * 3000 + ((5 # 2) * (5 # 2) + 0)))))]].
Proof.
  apply (price_only_from_predictor Sample.env).
  apply (list_elem_of_lookup_2 _ 0). reflexivity.
Defined.

(** ** The table of coefficients *)

Lemma tables_checkboxes (features : list string) :
  omap table_of (checkbox_call <$> features) = [].
Proof. by induction features. Qed.

Lemma tables_select_features (env : Env) :
  omap table_of (trace (select_features env)) = [].
Proof.
  destruct (select_features env) as [pre [[[df sel]|]|e]] eqn:Hsel;
    rewrite trace_pair.
  - apply select_features_inv in Hsel as (_ & _ & _ & _ & ->).
    by rewrite omap_app, tables_checkboxes.
  - apply select_features_none_inv in Hsel
      as [-> | [(df & joined & _ & _ & ->) | (df & _ & ->)]]; [done..|].
    by rewrite !omap_app, tables_checkboxes.
  - apply select_features_raise_inv in Hsel
      as [[_ ->] | [(df & _ & _ & ->) | (df & t & _ & Hloop & ->)]];
      [done..|].
    destruct (checkbox_loop_trace env (available_features df) []) as [n Hn].
    rewrite Hloop, trace_pair in Hn. subst t.
    by rewrite omap_app, tables_checkboxes.
Qed.

Lemma tables_sliders (ts : list event) :
  Forall (λ ev, is_slider ev = true) ts → omap table_of ts = [].
Proof. induction 1 as [|ev ts Hev _ IH]; [done|]. by destruct ev. Qed.

Lemma tables_try_except (m : page unit) :
  omap table_of (trace (try_except m except_handler)) =
  omap table_of (trace m).
Proof.
  rewrite trace_try_except, omap_app.
  destruct (outcome m) as [|e]; [by rewrite app_nil_r|].
  destruct (exn_is_Exception e); by rewrite app_nil_r.
Qed.

Lemma tables_predict (env : Env) (model : Model) (feature_values : list Q) :
  omap table_of (trace (predict env model feature_values)) = [].
Proof.
  unfold predict. destruct (button env _) as [[]|e]; [|done..].
  rewrite bind_call_ok.
  by destruct (make_prediction env model feature_values) as [[p|]|e].
Qed.

Lemma tables_model_information (model : Model)
    (r_squared rmse : option pyfloat) (selected_features : list string) :
  omap table_of
    (trace (model_information model r_squared rmse selected_features)) = [] ∨
  length selected_features = length (coef_ model) ∧
  omap table_of
    (trace (model_information model r_squared rmse selected_features)) =
    [zip selected_features (coef_ model)].
Proof.
  unfold model_information, pd_DataFrame.
  destruct r_squared, rmse; try (by left).
  case_bool_decide; [by right|by left].
Qed.

Lemma tables_train_and_render (env : Env) (df : DataFrame)
    (selected : list string) :
  omap table_of (trace (train_and_render env df selected)) = [] ∨
  ∃ model r_squared rmse clean_df,
    train_model env df selected =
      Ok (Some model, r_squared, rmse, Some clean_df) ∧
    length selected = length (coef_ model) ∧
    omap table_of (trace (train_and_render env df selected)) =
      [zip selected (coef_ model)].
Proof.
  destruct (train_and_render_cases env df selected)
    as [[e Htrain] | [(model & r2 & rmse & clean & Htrain & Hfail) |
        (model & r2 & rmse & clean & ts & Htrain & Hempty & Hloop)]].
  - left. unfold train_and_render. by rewrite Htrain.
  - left. by rewrite (train_and_render_failed _ _ _ _ _ _ _ Htrain Hfail).
  - pose proof (slider_loop_trace env clean selected []) as Hts.
    destruct Hloop as [[e Hloop] | [vals Hloop]];
      rewrite Hloop, trace_pair in Hts; apply tables_sliders in Hts.
    + left.
      by rewrite (train_and_render_sliders_raise _ _ _ _ _ _ _ _ _
                    Htrain Hempty Hloop), trace_pair.
    + rewrite (train_and_render_trained _ _ _ _ _ _ _ _ _
                 Htrain Hempty Hloop), trace_pair.
      cbn [omap list_omap table_of].
      rewrite omap_app, Hts, trace_bind, omap_app, tables_predict.
      cbn [app].
      destruct (outcome (predict env model vals)); [|by left].
      destruct (tables_model_information model r2 rmse selected)
        as [-> | [Hlen ->]]; [by left|].
      right. by exists model, r2, rmse, clean.
Qed.

(** X10. In every run, a table of coefficients on the page is the table
    of the trained model: it is shown only for a model with one
    coefficient per selected feature, at most once, and its rows pair the
    selected features, in order, with the model's coefficients. *)
Theorem coefficient_table_rows (env : Env) (data : list (string * Q)) :
  Display (Dataframe data) ∈ trace (main env) →
  ∃ pre df selected model r_squared rmse clean_df,
    select_features env = (pre, Ok (Some (df, selected))) ∧
    train_model env df selected =
      Ok (Some model, r_squared, rmse, Some clean_df) ∧
    data.*1 = selected ∧ data.*2 = coef_ model ∧
    omap table_of (trace (main env)) = [data].
Proof.
  intros Hshown.
  assert (data ∈ omap table_of (trace (main env))) as Hin.
  { apply list_elem_of_omap. by exists (Display (Dataframe data)). }
  revert Hin. unfold main.
  rewrite trace_bind, omap_app, tables_select_features. cbn [app].
  destruct (select_features env) as [pre [[[df sel]|]|e]] eqn:Hsel;
    rewrite outcome_pair; [|by intros ?%elem_of_nil..].
  rewrite tables_try_except.
  destruct (tables_train_and_render env df sel)
    as [-> | (model & r2 & rmse & clean & Htrain & Hlen & ->)];
    [by intros ?%elem_of_nil|].
  intros ->%list_elem_of_singleton.
  exists pre, df, sel, model, r2, rmse, clean.
  repeat split; try done.
  - by apply fst_zip; lia.
  - by apply snd_zip; lia.
Qed.

Lemma coefficient_table_rows_witness :
  ∃ pre df selected model r_squared rmse clean_df,
    select_features Sample.env = (pre, Ok (Some (df, selected))) ∧
    train_model Sample.env df selected =
      Ok (Some model, r_squared, rmse, Some clean_df) ∧
    [("gold_price_usd", 5 # 2); ("SP500", 5 # 2);
     ("fed_funds_rate", 5 # 2)].*1 = selected ∧
    [("gold_price_usd", 5 # 2); ("SP500", 5 # 2);
     ("fed_funds_rate", 5 # 2)].*2 = coef_ model ∧
    omap table_of (trace (main Sample.env)) =
      [[("gold_price_usd", 5 # 2); ("SP500", 5 # 2);
        ("fed_funds_rate", 5 # 2)]].
Proof.
  apply (coefficient_table_rows Sample.env).
  apply (list_elem_of_lookup_2 _ 24). reflexivity.
Defined.

(** ** The checkboxes *)

Lemma checkbox_loop_answers (env : Env) (features acc : list string) :
  (∀ feat, feat ∈ features →
     ∃ b, checkbox env feat true ("feature_" +:+ feat) = Ok b) →
  ∃ selected,
    checkbox_loop env features acc = (checkbox_call <$> features, Ok selected).
Proof.
  revert acc. induction features as [|feature rest IH]; intros acc Hall.
  - by exists acc.
  - cbn [checkbox_loop]. destruct (Hall feature) as [b ->]; [by left|].
    rewrite bind_call_ok.
    destruct (IH (if b then acc ++ [feature] else acc)) as [sel ->].
    { intros feat Hfeat. apply Hall. by right. }
    by exists sel.
Qed.

Lemma checkboxes_checkboxes (features : list string) :
  filter is_checkbox (checkbox_call <$> features) = checkbox_call <$> features.
Proof.
  induction features as [|f l IH]; [done|].
  rewrite fmap_cons, filter_cons_True by done. by f_equal.
Qed.

Lemma checkboxes_sliders (ts : list event) :
  Forall (λ ev, is_slider ev = true) ts → filter is_checkbox ts = [].
Proof. induction 1 as [|ev ts Hev _ IH]; [done|]. by destruct ev. Qed.

Lemma checkboxes_try_except (m : page unit) :
  filter is_checkbox (trace (try_except m except_handler)) =
  filter is_checkbox (trace m).
Proof.
  rewrite trace_try_except, filter_app.
  destruct (outcome m) as [|e]; [by rewrite app_nil_r|].
  destruct (exn_is_Exception e); by rewrite app_nil_r.
Qed.

Lemma checkboxes_after_sliders (env : Env) (model : Model)
    (r_squared rmse : option pyfloat) (selected_features : list string)
    (feature_values : list Q) :
  filter is_checkbox
    (trace (predict env model feature_values;;
            model_information model r_squared rmse selected_features)) = [].
Proof.
  rewrite trace_bind, filter_app.
  assert (filter is_checkbox (trace (predict env model feature_values)) = [])
    as ->.
  { unfold predict. destruct (button env _) as [[]|e]; [|done..].
    rewrite bind_call_ok.
    by destruct (make_prediction env model feature_values) as [[p|]|e]. }
  destruct (outcome (predict env model feature_values)); [|done].
  unfold model_information, pd_DataFrame.
  destruct r_squared, rmse; try done; by case_bool_decide.
Qed.

(** From the [try] on, no checkbox is offered. *)
Lemma checkboxes_train_and_render (env : Env) (df : DataFrame)
    (selected : list string) :
  filter is_checkbox (trace (train_and_render env df selected)) = [].
Proof.
  destruct (train_and_render_cases env df selected)
    as [[e Htrain] | [(model & r2 & rmse & clean & Htrain & Hfail) |
        (model & r2 & rmse & clean & ts & Htrain & Hempty & Hloop)]].
  - unfold train_and_render. by rewrite Htrain.
  - by rewrite (train_and_render_failed _ _ _ _ _ _ _ Htrain Hfail).
  - pose proof (slider_loop_trace env clean selected []) as Hts.
    destruct Hloop as [[e Hloop] | [vals Hloop]];
      rewrite Hloop, trace_pair in Hts; apply checkboxes_sliders in Hts.
    + rewrite (train_and_render_sliders_raise _ _ _ _ _ _ _ _ _
                 Htrain Hempty Hloop), trace_pair.
      rewrite !filter_cons. cbn. done.
    + rewrite (train_and_render_trained _ _ _ _ _ _ _ _ _
                 Htrain Hempty Hloop), trace_pair.
      rewrite !filter_cons, filter_app, Hts, checkboxes_after_sliders. done.
Qed.

(** X11. On a loaded, non-empty dataset, when every checkbox answers, the
    checkboxes of the whole run are exactly one per available feature,
    in the order of the candidates, each labelled with the feature,
    ticked by default and registered under [feature_<name>]: whatever
    happens later in the run, no checkbox is added or repeated. *)
Theorem checkbox_per_available_feature (env : Env) (btc_macro_df : DataFrame) :
  load_data env = Ok (Some btc_macro_df) →
  empty btc_macro_df = false →
  (∀ feat, feat ∈ available_features btc_macro_df →
     ∃ b, checkbox env feat true ("feature_" +:+ feat) = Ok b) →
  filter is_checkbox (trace (main env)) =
    (λ feat, CallCheckbox feat true ("feature_" +:+ feat))
      <$> available_features btc_macro_df.
Proof.
  intros Hload Hempty Hanswers.
  destruct (checkbox_loop_answers env _ [] Hanswers) as [sel Hloop].
  destruct (available_features btc_macro_df) as [|feat avail] eqn:Havail.
  { unfold main, select_features.
    rewrite bind_intro, Hload, bind_call_ok, Hempty, Havail.
    rewrite no_features_page.
    by destruct (join ", " (labels btc_macro_df)). }
  destruct sel as [|s sel].
  - assert (select_features env =
      (before_checkboxes ++ (checkbox_call <$> feat :: avail) ++
       [Display (Error [Lit "Please select at least one feature for prediction."])],
       Ok None)) as Hselect.
    { unfold select_features.
      rewrite bind_intro, Hload, bind_call_ok, Hempty, Havail.
      rewrite !bind_show, Hloop, bind_ok. unfold before_checkboxes.
      cbn. by rewrite ?app_nil_r. }
    unfold main. rewrite Hselect, bind_ok. cbn [mret page_ret].
    rewrite !trace_pair, !filter_app, checkboxes_checkboxes.
    cbn. by rewrite ?app_nil_r.
  - assert (select_features env =
      (before_checkboxes ++ (checkbox_call <$> feat :: avail),
       Ok (Some (btc_macro_df, s :: sel)))) as Hselect.
    { unfold select_features.
      rewrite bind_intro, Hload, bind_call_ok, Hempty, Havail.
      rewrite !bind_show, Hloop, bind_ok. unfold before_checkboxes.
      cbn. by rewrite ?app_nil_r. }
    rewrite (main_after_selection _ _ _ _ Hselect), trace_pair.
    rewrite !filter_app, checkboxes_checkboxes, checkboxes_try_except,
      checkboxes_train_and_render.
    cbn. by rewrite ?app_nil_r.
Qed.

Lemma checkbox_per_available_feature_witness :
  filter is_checkbox (trace (main Sample.two_ticked)) =
    [ CallCheckbox "gold_price_usd" true "feature_gold_price_usd";
      CallCheckbox "SP500" true "feature_SP500";
      CallCheckbox "fed_funds_rate" true "feature_fed_funds_rate" ].
Proof.
  apply (checkbox_per_available_feature Sample.two_ticked
           Sample.btc_macro_df).
  - reflexivity.
  - reflexivity.
  - intros feat _. by eexists.
Defined.
